(** * AvoplotProSAIL: the PyProSAIL plugin for AvoPlot

    A shallow embedding of [prosail.py] and the properties of its three
    classes ([ProSAILSeries], [ProSAILControl], [ProsailPlugin]) and of its
    module body.

    The module is glue between three external libraries.  They are modelled
    as follows.
    - [pyprosail.run] is a parameter of the development: a function of the
      argument tuple and of a hidden simulator state, which returns a table
      or raises.  Nothing is assumed about it unless a theorem says so.
    - The host objects the module touches (series arrays, control panel
      attributes, FloatSpin widgets, event bindings, the plugin registry)
      live in an explicit store; every call into wx or avoplot is also
      recorded, in program order, in a trace.
    - Python numbers are exact rationals: [40] and [0.009] are the literals
      of the source, and the int/float distinction is not modelled. *)

From Stdlib Require Import QArith.
From stdpp Require Import base gmap strings list.

Local Open Scope string_scope.
Local Open Scope list_scope.

(** ** Values *)

(** What can be passed to [pyprosail.run]: a number, or the module constant
    [pyprosail.Planophile], kept opaque. *)
Inductive PyVal : Type :=
| Num (q : Q)
| Planophile.

(** A two-dimensional numpy array, row major, with its column count (the
    second component of [shape]). *)
Record ndarray : Type := mk_ndarray {
  ncols : nat;
  rows : list (list Q)
}.

Inductive Exn : Type :=
| AttributeError (attr : string)
| KeyError (key : string)
| IndexError
| ModelError (msg : string).

Inductive Result (A : Type) : Type :=
| Ok (a : A)
| Raise (e : Exn).
Arguments Ok {A} a.
Arguments Raise {A} e.

(** Object references are keys of the store. *)
Abbreviation loc := nat (only parsing).

(** ** Host objects *)

Inductive WxFlag : Type :=
| wxLEFT | wxRIGHT | wxTOP | wxALL | wxEXPAND | wxALIGN_CENTER_HORIZONTAL.

(** [wx.lib.agw.floatspin.FloatSpin]: the fields the module sets.  [None]
    for the format and the digits is the constructor's own default. *)
Record FloatSpin : Type := mk_FloatSpin {
  fs_parent : loc;
  fs_min_val : Q;
  fs_max_val : Q;
  fs_increment : Q;
  fs_value : Q;
  fs_format : option string;
  fs_digits : option nat
}.

(** A bound method used as an event handler: [self.update_plot]. *)
Inductive Handler : Type :=
| update_plot_of (self : loc).

(** The wx event object handed to a handler. *)
Record FloatSpinEvent : Type := mk_event { ev_id : nat }.

Inductive SubplotType : Type := AvoPlotXYSubplot.
Inductive SeriesType : Type := ProSAILSeries_class.

(** Instance state of [ProSAILSeries] (through [series.XYDataSeries]). *)
Record ProSAILSeries : Type := mk_series {
  s_name : string;
  s_xdata : list Q;
  s_ydata : list Q;
  s_control_panels : list loc
}.

(** Instance state of [ProSAILControl].  [pc_sliders = None] means that the
    instance has no attribute [sliders]. *)
Record ProSAILControl : Type := mk_control {
  pc_name : string;
  pc_series : loc;
  pc_sliders : option (gmap string loc)
}.

(** Instance state of [ProsailPlugin] (through [AvoPlotPluginSimple]). *)
Record ProsailPlugin : Type := mk_plugin {
  pl_name : string;
  pl_series_type : SeriesType;
  pl_menu_entry : option (list string * string)
}.

Inductive SizerChild : Type :=
| LabelChild (caption : string)
| SpinChild (widget : loc).

(** Calls into the external libraries, in program order. *)
Inductive Event : Type :=
| EvPanelInit (panel : loc) (name : string)
| EvPanelSetup (panel parent : loc)
| EvStaticText (parent : loc) (caption : string)
| EvSizerAdd (panel : loc) (child : SizerChild) (proportion : nat)
             (flags : list WxFlag) (border : nat)
| EvFloatSpin (widget : loc)
| EvBind (panel : loc) (id : nat) (handler : Handler)
| EvGetValue (widget : loc) (value : Q)
| EvRun (args : list PyVal)
| EvSeriesInit (s : loc) (name : string) (xdata ydata : list Q)
| EvAddControlPanel (s panel : loc)
| EvSetXYData (s : loc) (xdata ydata : list Q)
| EvSeriesUpdate (s : loc)
| EvPluginInit (plugin : loc) (name : string)
| EvSetMenuEntry (plugin : loc) (path : list string) (description : string)
| EvAddDataSeries (subplot s : loc)
| EvRegister (plugin : loc).

(** ** Argument expressions of a call site

    The arguments of a call to [pyprosail.run] as they are written: a local
    variable of the enclosing function, a numeric literal, or the attribute
    [pyprosail.Planophile].  [V] is the type of the local variables that may
    occur. *)
Inductive ArgExpr (V : Type) : Type :=
| Local (x : V)
| Lit (q : Q)
| pyprosail_Planophile.
Arguments Local {V} x.
Arguments Lit {V} q.
Arguments pyprosail_Planophile {V}.

Definition eval_arg {V : Type} (env : V -> Q) (a : ArgExpr V) : PyVal :=
  match a with
  | Local x => Num (env x)
  | Lit q => Num q
  | pyprosail_Planophile => Planophile
  end.

Definition is_local {V : Type} (a : ArgExpr V) : bool :=
  match a with Local _ => true | _ => false end.

Definition is_numeric_constant {V : Type} (a : ArgExpr V) : bool :=
  match a with Lit _ => true | _ => false end.

Definition is_categorical_constant {V : Type} (a : ArgExpr V) : bool :=
  match a with pyprosail_Planophile => true | _ => false end.

Definition is_fixed {V : Type} (a : ArgExpr V) : bool := negb (is_local a).

Definition count_args {V : Type} (p : ArgExpr V -> bool) (l : list (ArgExpr V)) : nat :=
  length (List.filter p l).

(** The four locals of [update_plot] that hold slider values. *)
Inductive UpdatePlotLocal : Type :=
| local_ewt | local_chloro | local_carot | local_N.

(** [pyprosail.run(N, chloro, carot, 0, ewt, 0.009, 1, 3, 0.01, 30, 0, 10,
    0, pyprosail.Planophile)] *)
Definition update_plot_run_args : list (ArgExpr UpdatePlotLocal) :=
  [ Local local_N; Local local_chloro; Local local_carot; Lit 0;
    Local local_ewt; Lit 0.009; Lit 1; Lit 3; Lit 0.01; Lit 30; Lit 0;
    Lit 10; Lit 0; pyprosail_Planophile ].

(** [pyprosail.run(1.5, 40, 8, 0, 0.1, 0.009, 1, 3, 0.01, 30, 0, 10, 0,
    pyprosail.Planophile)]: no local variable occurs. *)
Definition plot_into_subplot_run_args : list (ArgExpr Empty_set) :=
  [ Lit 1.5; Lit 40; Lit 8; Lit 0; Lit 0.1; Lit 0.009; Lit 1; Lit 3;
    Lit 0.01; Lit 30; Lit 0; Lit 10; Lit 0; pyprosail_Planophile ].

Definition no_locals (x : Empty_set) : Q := match x with end.

Definition update_plot_locals (ewt chloro carot N : Q) (x : UpdatePlotLocal) : Q :=
  match x with
  | local_ewt => ewt
  | local_chloro => chloro
  | local_carot => carot
  | local_N => N
  end.

(** [res[:, j]] *)
Definition column (res : ndarray) (j : nat) : Result (list Q) :=
  if (j <? ncols res)%nat
  then Ok (map (fun r => nth j r 0%Q) (rows res))
  else Raise IndexError.

(** ** Two simulators to run the program on

    [toy_run] is a pure function of its arguments (the state only counts
    the calls) and rejects a structure coefficient that is not positive;
    [drifting_run] gives a table that depends on the number of earlier
    calls. *)
Definition toy_run (args : list PyVal) (calls : nat) : Result ndarray * nat :=
  match args with
  | Num n :: Num cab :: Num car :: _ =>
      if Qle_bool n 0
      then (Raise (ModelError "N must be positive"), S calls)
      else (Ok (mk_ndarray 2 [[400%Q; n]; [401%Q; cab]; [402%Q; car]]), S calls)
  | _ => (Raise (ModelError "bad arguments"), S calls)
  end.

Definition drifting_run (args : list PyVal) (calls : nat) : Result ndarray * nat :=
  (Ok (mk_ndarray 2 [[400%Q; inject_Z (Z.of_nat calls)]]), S calls).

(** A simulator whose table has two columns at the first call and only one
    afterwards. *)
Definition narrowing_run (args : list PyVal) (calls : nat) : Result ndarray * nat :=
  match calls with
  | O => (Ok (mk_ndarray 2 [[400%Q; 0.05%Q]]), 1%nat)
  | S _ => (Ok (mk_ndarray 1 [[400%Q]]), S calls)
  end.

(** * The program, over an arbitrary simulator *)

Section Prosail.

(** [pyprosail.run]: its hidden state, and its behaviour on an argument
    tuple. *)
Variable SimState : Type.
Variable pyprosail_run : list PyVal -> SimState -> Result ndarray * SimState.

(** ** The store *)

Record World : Type := mk_World {
  w_sim : SimState;
  w_series : gmap loc ProSAILSeries;
  w_controls : gmap loc ProSAILControl;
  w_widgets : gmap loc FloatSpin;
  w_plugins : gmap loc ProsailPlugin;
  (** [(panel, widget id, handler)], most recent binding first *)
  w_bindings : list (loc * nat * Handler);
  (** the module global [plugin_is_GPL_compatible] *)
  w_plugin_is_GPL_compatible : option bool;
  (** the module is in [sys.modules] *)
  w_imported : bool;
  w_trace : list Event
}.

Definition set_sim (s : SimState) (w : World) : World :=
  mk_World s (w_series w) (w_controls w) (w_widgets w) (w_plugins w)
           (w_bindings w) (w_plugin_is_GPL_compatible w) (w_imported w) (w_trace w).

Definition set_series (m : gmap loc ProSAILSeries) (w : World) : World :=
  mk_World (w_sim w) m (w_controls w) (w_widgets w) (w_plugins w)
           (w_bindings w) (w_plugin_is_GPL_compatible w) (w_imported w) (w_trace w).

Definition set_controls (m : gmap loc ProSAILControl) (w : World) : World :=
  mk_World (w_sim w) (w_series w) m (w_widgets w) (w_plugins w)
           (w_bindings w) (w_plugin_is_GPL_compatible w) (w_imported w) (w_trace w).

Definition set_widgets (m : gmap loc FloatSpin) (w : World) : World :=
  mk_World (w_sim w) (w_series w) (w_controls w) m (w_plugins w)
           (w_bindings w) (w_plugin_is_GPL_compatible w) (w_imported w) (w_trace w).

Definition set_plugins (m : gmap loc ProsailPlugin) (w : World) : World :=
  mk_World (w_sim w) (w_series w) (w_controls w) (w_widgets w) m
           (w_bindings w) (w_plugin_is_GPL_compatible w) (w_imported w) (w_trace w).

Definition set_bindings (b : list (loc * nat * Handler)) (w : World) : World :=
  mk_World (w_sim w) (w_series w) (w_controls w) (w_widgets w) (w_plugins w)
           b (w_plugin_is_GPL_compatible w) (w_imported w) (w_trace w).

Definition set_plugin_is_GPL_compatible (b : option bool) (w : World) : World :=
  mk_World (w_sim w) (w_series w) (w_controls w) (w_widgets w) (w_plugins w)
           (w_bindings w) b (w_imported w) (w_trace w).

Definition set_imported (b : bool) (w : World) : World :=
  mk_World (w_sim w) (w_series w) (w_controls w) (w_widgets w) (w_plugins w)
           (w_bindings w) (w_plugin_is_GPL_compatible w) b (w_trace w).

Definition log (e : Event) (w : World) : World :=
  mk_World (w_sim w) (w_series w) (w_controls w) (w_widgets w) (w_plugins w)
           (w_bindings w) (w_plugin_is_GPL_compatible w) (w_imported w)
           (w_trace w ++ [e]).

(** ** Computations: state and exceptions

    A raised exception keeps the effects made before it. *)
Definition M (A : Type) : Type := World -> Result A * World.

Definition ret {A : Type} (a : A) : M A := fun w => (Ok a, w).

Definition raise {A : Type} (e : Exn) : M A := fun w => (Raise e, w).

Definition bind {A B : Type} (m : M A) (k : A -> M B) : M B :=
  fun w =>
    match m w with
    | (Ok a, w') => k a w'
    | (Raise e, w') => (Raise e, w')
    end.

Notation "x <- m ;; k" := (bind m (fun x => k))
  (at level 100, m at next level, right associativity).
Notation "m ;;; k" := (bind m (fun _ => k))
  (at level 100, right associativity).

Definition lift {A : Type} (r : Result A) : M A := fun w => (r, w).

Definition effect (f : World -> World) : M unit := fun w => (Ok tt, f w).

(** ** The external libraries *)

(** *** wx and wx.lib.agw.floatspin *)

(** [wx.StaticText(parent, wx.ID_ANY, caption)] *)
Definition StaticText (parent : loc) (caption : string) : M SizerChild :=
  effect (log (EvStaticText parent caption)) ;;;
  ret (LabelChild caption).

(** [panel.Add(child, proportion, flags, border=border)] *)
Definition Add (panel : loc) (child : SizerChild) (proportion : nat)
    (flags : list WxFlag) (border : nat) : M unit :=
  effect (log (EvSizerAdd panel child proportion flags border)).

(** [FS.FloatSpin(parent, -1, min_val=.., max_val=.., increment=..,
    value=..)]: a new widget object. *)
Definition FloatSpin_new (parent : loc) (min_val max_val increment value : Q) : M loc :=
  fun w =>
    let r := fresh (dom (w_widgets w)) in
    let fs := mk_FloatSpin parent min_val max_val increment value None None in
    (Ok r, log (EvFloatSpin r) (set_widgets (<[r := fs]> (w_widgets w)) w)).

Definition with_widget {A : Type} (meth : string) (r : loc) (k : FloatSpin -> M A) : M A :=
  fun w =>
    match w_widgets w !! r with
    | Some fs => k fs w
    | None => (Raise (AttributeError meth), w)
    end.

Definition SetFormat (r : loc) (fmt : string) : M unit :=
  with_widget "SetFormat" r (fun fs =>
    effect (fun w => set_widgets
      (<[r := mk_FloatSpin (fs_parent fs) (fs_min_val fs) (fs_max_val fs)
                           (fs_increment fs) (fs_value fs) (Some fmt) (fs_digits fs)]>
         (w_widgets w)) w)).

Definition SetDigits (r : loc) (digits : nat) : M unit :=
  with_widget "SetDigits" r (fun fs =>
    effect (fun w => set_widgets
      (<[r := mk_FloatSpin (fs_parent fs) (fs_min_val fs) (fs_max_val fs)
                           (fs_increment fs) (fs_value fs) (fs_format fs) (Some digits)]>
         (w_widgets w)) w)).

Definition GetValue (r : loc) : M Q :=
  with_widget "GetValue" r (fun fs =>
    effect (log (EvGetValue r (fs_value fs))) ;;;
    ret (fs_value fs)).

(** The window id of a widget created with id [-1] is drawn by wx; the
    model uses the widget's key in the store. *)
Definition GetId (r : loc) : M nat :=
  with_widget "GetId" r (fun _ => ret r).

(** [FS.EVT_FLOATSPIN(panel, id, handler)] *)
Definition EVT_FLOATSPIN (panel : loc) (id : nat) (handler : Handler) : M unit :=
  effect (fun w => log (EvBind panel id handler)
                       (set_bindings ((panel, id, handler) :: w_bindings w) w)).

(** *** avoplot.series.XYDataSeries *)

(** [XYDataSeries.__init__(name, xdata=.., ydata=..)] on a new object. *)
Definition XYDataSeries_init (name : string) (xdata ydata : list Q) : M loc :=
  fun w =>
    let s := fresh (dom (w_series w)) in
    (Ok s, log (EvSeriesInit s name xdata ydata)
               (set_series (<[s := mk_series name xdata ydata []]> (w_series w)) w)).

Definition with_series {A : Type} (meth : string) (s : loc) (k : ProSAILSeries -> M A) : M A :=
  fun w =>
    match w_series w !! s with
    | Some ser => k ser w
    | None => (Raise (AttributeError meth), w)
    end.

(** [s.set_xy_data(xdata=.., ydata=..)]: both arrays are replaced; their
    lengths are not compared. *)
Definition set_xy_data (s : loc) (xdata ydata : list Q) : M unit :=
  with_series "set_xy_data" s (fun ser =>
    effect (fun w => log (EvSetXYData s xdata ydata)
      (set_series (<[s := mk_series (s_name ser) xdata ydata (s_control_panels ser)]>
                     (w_series w)) w))).

(** [s.update()]: asks the host to redraw. *)
Definition update (s : loc) : M unit :=
  with_series "update" s (fun _ => effect (log (EvSeriesUpdate s))).

Definition add_control_panel (s panel : loc) : M unit :=
  with_series "add_control_panel" s (fun ser =>
    effect (fun w => log (EvAddControlPanel s panel)
      (set_series (<[s := mk_series (s_name ser) (s_xdata ser) (s_ydata ser)
                                    (s_control_panels ser ++ [panel])]>
                     (w_series w)) w))).

(** *** avoplot.subplots and avoplot.plugins *)

Definition add_data_series (subplot s : loc) : M unit :=
  effect (log (EvAddDataSeries subplot s)).

Definition plugins_register (plugin : loc) : M unit :=
  effect (log (EvRegister plugin)).

(** *** pyprosail *)

Definition run (args : list PyVal) : M ndarray :=
  fun w =>
    let '(r, sim') := pyprosail_run args (w_sim w) in
    (r, set_sim sim' (log (EvRun args) w)).

(** ** Attribute access on a control panel *)

Definition with_control {A : Type} (attr : string) (self : loc)
    (k : ProSAILControl -> M A) : M A :=
  fun w =>
    match w_controls w !! self with
    | Some c => k c w
    | None => (Raise (AttributeError attr), w)
    end.

(** [self.series] *)
Definition get_series (self : loc) : M loc :=
  with_control "series" self (fun c => ret (pc_series c)).

(** [self.sliders] *)
Definition get_sliders (self : loc) : M (gmap string loc) :=
  with_control "sliders" self (fun c =>
    match pc_sliders c with
    | Some d => ret d
    | None => raise (AttributeError "sliders")
    end).

(** [self.sliders = d], and the in-place update of the dictionary that
    [self.sliders] refers to. *)
Definition set_sliders (self : loc) (d : gmap string loc) : M unit :=
  with_control "sliders" self (fun c =>
    effect (fun w => set_controls
      (<[self := mk_control (pc_name c) (pc_series c) (Some d)]> (w_controls w)) w)).

(** [d[key]] *)
Definition getitem (d : gmap string loc) (key : string) : M loc :=
  match d !! key with
  | Some r => ret r
  | None => raise (KeyError key)
  end.

(** ** class ProSAILControl *)

(** [ProSAILControl(series)]: a new object, the parent's [__init__] with the
    tab name, then [self.series = series].  No attribute [sliders] yet. *)
Definition ProSAILControl_init (series : loc) : M loc :=
  fun w =>
    let self := fresh (dom (w_controls w)) in
    (Ok self, log (EvPanelInit self "ProSAIL Parameters")
                  (set_controls
                     (<[self := mk_control "ProSAIL Parameters" series None]>
                        (w_controls w)) w)).

Definition add_slider (self : loc) (name caption : string)
    (defaultval minval maxval inc : Q) (handler : Handler) : M unit :=
  label <- StaticText self caption ;;
  Add self label 0 [wxLEFT; wxRIGHT; wxTOP; wxALIGN_CENTER_HORIZONTAL] 10 ;;;
  slider_ref <- FloatSpin_new self minval maxval inc defaultval ;;
  SetFormat slider_ref "%f" ;;;
  SetDigits slider_ref 2 ;;;
  (* self.sliders[name] = slider_ref *)
  d <- get_sliders self ;;
  set_sliders self (<[name := slider_ref]> d) ;;;
  (* self.Add(self.sliders[name], 0, ..., border=0) *)
  d1 <- get_sliders self ;;
  r1 <- getitem d1 name ;;
  Add self (SpinChild r1) 0 [wxALL; wxEXPAND; wxALIGN_CENTER_HORIZONTAL] 0 ;;;
  (* FS.EVT_FLOATSPIN(self, self.sliders[name].GetId(), handler) *)
  d2 <- get_sliders self ;;
  r2 <- getitem d2 name ;;
  id <- GetId r2 ;;
  EVT_FLOATSPIN self id handler.

Definition setup (self parent : loc) : M unit :=
  effect (log (EvPanelSetup self parent)) ;;;
  set_sliders self ∅ ;;;
  add_slider self "EWT" "Equivalent Water Thickness (cm)" 0.1 0 1 0.01
             (update_plot_of self) ;;;
  add_slider self "Chloro" "Chlorophyll content (ug per cm^2)" 40 0 100 1
             (update_plot_of self) ;;;
  add_slider self "Carot" "Carotenoid content (ug per cm^2)" 8 0 100 1
             (update_plot_of self) ;;;
  add_slider self "N" "Structure Coefficient" 1.5 0 3 0.1
             (update_plot_of self).

(** [self.sliders[name].GetValue()] *)
Definition slider_value (self : loc) (name : string) : M Q :=
  d <- get_sliders self ;;
  r <- getitem d name ;;
  GetValue r.

Definition update_plot (self : loc) (evnt : FloatSpinEvent) : M unit :=
  ewt <- slider_value self "EWT" ;;
  chloro <- slider_value self "Chloro" ;;
  carot <- slider_value self "Carot" ;;
  N <- slider_value self "N" ;;
  res <- run (map (eval_arg (update_plot_locals ewt chloro carot N))
                  update_plot_run_args) ;;
  (* self.series.set_xy_data(xdata=res[:,0], ydata=res[:,1]) *)
  s <- get_series self ;;
  xdata <- lift (column res 0) ;;
  ydata <- lift (column res 1) ;;
  set_xy_data s xdata ydata ;;;
  (* self.series.update() *)
  s' <- get_series self ;;
  update s'.

(** ** class ProSAILSeries *)

(** [ProSAILSeries(name, xdata=.., ydata=..)]: the parent's [__init__], then
    a control panel of its own. *)
Definition ProSAILSeries_init (name : string) (xdata ydata : list Q) : M loc :=
  self <- XYDataSeries_init name xdata ydata ;;
  panel <- ProSAILControl_init self ;;
  add_control_panel self panel ;;;
  ret self.

Definition get_supported_subplot_type : SubplotType := AvoPlotXYSubplot.

(** ** class ProsailPlugin *)

(** [ProsailPlugin()]: a new object, the parent's [__init__] with the name
    and the series class, then the menu entry. *)
Definition ProsailPlugin_init : M loc :=
  fun w =>
    let self := fresh (dom (w_plugins w)) in
    let path := ["Optical RS"; "PyProSAIL"] in
    let descr := "Plot outputs from the PyProSAIL vegetation reflectance model" in
    (Ok self,
     log (EvSetMenuEntry self path descr)
       (log (EvPluginInit self "PyProSAIL")
          (set_plugins
             (<[self := mk_plugin "PyProSAIL" ProSAILSeries_class (Some (path, descr))]>
                (w_plugins w)) w))).

Definition plot_into_subplot (self subplot : loc) : M bool :=
  res <- run (map (eval_arg no_locals) plot_into_subplot_run_args) ;;
  xdata <- lift (column res 0) ;;
  ydata <- lift (column res 1) ;;
  data_series <- ProSAILSeries_init "ProSAIL Output" xdata ydata ;;
  add_data_series subplot data_series ;;;
  ret true.

(** ** The module body and its import *)

Definition module_body : M unit :=
  effect (set_plugin_is_GPL_compatible (Some true)) ;;;
  plugin <- ProsailPlugin_init ;;
  plugins_register plugin.

(** [import prosail]: Python runs a module's body on the first import of a
    process and finds the module in [sys.modules] afterwards; a body that
    raises leaves no entry there. *)
Definition import_prosail : M unit :=
  fun w =>
    if w_imported w then (Ok tt, w)
    else match module_body w with
         | (Ok _, w') => (Ok tt, set_imported true w')
         | (Raise e, w') => (Raise e, w')
         end.

(** ** The host's event loop *)

Definition call_handler (h : Handler) (evnt : FloatSpinEvent) : M unit :=
  match h with
  | update_plot_of self => update_plot self evnt
  end.

(** A change event of the widget with window id [id]: the handler bound
    to that id, if any, runs. *)
Definition fire_EVT_FLOATSPIN (id : nat) : M unit :=
  fun w =>
    match find (fun b => Nat.eqb (snd (fst b)) id) (w_bindings w) with
    | Some (_, _, h) => call_handler h (mk_event id) w
    | None => (Ok tt, w)
    end.

(** What the host and the user can do in the lifetime of a process. *)
Inductive Action : Type :=
| ActImport
| ActPlot (plugin subplot : loc)
| ActSetup (panel parent : loc)
| ActAddSlider (panel : loc) (name caption : string)
               (defaultval minval maxval inc : Q) (handler : Handler)
| ActUserEdit (widget : loc) (value : Q)
| ActChange (id : nat)
| ActUpdatePlot (panel : loc) (evnt : FloatSpinEvent).

(** The user types a value into a widget (the widget's own clamping and
    rounding are wx's and are left out: any value may result). *)
Definition user_edit (r : loc) (value : Q) : M unit :=
  with_widget "SetValue" r (fun fs =>
    effect (fun w => set_widgets
      (<[r := mk_FloatSpin (fs_parent fs) (fs_min_val fs) (fs_max_val fs)
                           (fs_increment fs) value (fs_format fs) (fs_digits fs)]>
         (w_widgets w)) w)).

(** One action; an exception ends in the host's event loop, the process
    goes on. *)
Definition step (a : Action) (w : World) : World :=
  match a with
  | ActImport => snd (import_prosail w)
  | ActPlot plugin subplot => snd (plot_into_subplot plugin subplot w)
  | ActSetup panel parent => snd (setup panel parent w)
  | ActAddSlider panel name caption d lo hi inc h =>
      snd (add_slider panel name caption d lo hi inc h w)
  | ActUserEdit r v => snd (user_edit r v w)
  | ActChange id => snd (fire_EVT_FLOATSPIN id w)
  | ActUpdatePlot panel evnt => snd (update_plot panel evnt w)
  end.

Definition exec (l : list Action) (w : World) : World := fold_left (fun w a => step a w) l w.

(** A process starts with nothing loaded. *)
Definition initial (sim : SimState) : World :=
  mk_World sim ∅ ∅ ∅ ∅ [] None false [].

Definition is_register (e : Event) : bool :=
  match e with EvRegister _ => true | _ => false end.

Definition registrations (w : World) : list Event :=
  List.filter is_register (w_trace w).

(** ** Reading the trace *)

(** The events a computation adds to the trace. *)
Definition events_of {A : Type} (m : M A) (w : World) : list Event :=
  drop (length (w_trace w)) (w_trace (snd (m w))).

(** The argument tuples of the simulator calls in a trace. *)
Fixpoint run_calls (t : list Event) : list (list PyVal) :=
  match t with
  | [] => []
  | EvRun args :: t' => args :: run_calls t'
  | _ :: t' => run_calls t'
  end.

(** ** What the store says about a slider, without effects *)

Definition reading (w : World) (self : loc) (name : string) : Result (loc * Q) :=
  match w_controls w !! self with
  | None => Raise (AttributeError "sliders")
  | Some c =>
      match pc_sliders c with
      | None => Raise (AttributeError "sliders")
      | Some d =>
          match d !! name with
          | None => Raise (KeyError name)
          | Some r =>
              match w_widgets w !! r with
              | None => Raise (AttributeError "GetValue")
              | Some fs => Ok (r, fs_value fs)
              end
          end
      end
  end.

(** ** Scenarios *)

(** The plugin is loaded and activated once (plugin 0, into subplot 7):
    series 0 and its control panel 0 exist, the panel is not set up. *)
Definition activated (sim : SimState) : World :=
  exec [ActImport; ActPlot 0 7] (initial sim).

(** Then the host sets the panel up (parent window 3): widgets 0 to 3. *)
Definition ready (sim : SimState) : World :=
  exec [ActSetup 0 3] (activated sim).

(** Then the user sets the structure coefficient (widget 3) to 0. *)
Definition zeroed (sim : SimState) : World :=
  exec [ActUserEdit 3 0] (ready sim).

(** Two activations, the second panel (panel 1) set up. *)
Definition second_ready (sim : SimState) : World :=
  exec [ActPlot 0 7; ActPlot 0 9; ActSetup 1 4] (initial sim).

(** The simulator does not read its hidden state. *)
Definition pure_simulator : Prop :=
  forall (args : list PyVal) (s1 s2 : SimState),
    fst (pyprosail_run args s1) = fst (pyprosail_run args s2).

(** The x and y arrays of the series of a control panel. *)
Definition series_xy (w : World) (self : loc) : option (list Q * list Q) :=
  c ← w_controls w !! self;
  ser ← w_series w !! pc_series c;
  Some (s_xdata ser, s_ydata ser).

(** The values of the four sliders, in the order of the reads. *)
Definition slider_values (w : World) (self : loc) : option (Q * Q * Q * Q) :=
  match reading w self "EWT", reading w self "Chloro",
        reading w self "Carot", reading w self "N" with
  | Ok (_, ewt), Ok (_, chloro), Ok (_, carot), Ok (_, N) =>
      Some (ewt, chloro, carot, N)
  | _, _, _, _ => None
  end.

(** The argument tuple [update_plot] builds from four slider values. *)
Definition update_plot_args (ewt chloro carot N : Q) : list PyVal :=
  map (eval_arg (update_plot_locals ewt chloro carot N)) update_plot_run_args.

(** The argument tuple of [plot_into_subplot]. *)
Definition plot_into_subplot_args : list PyVal :=
  map (eval_arg no_locals) plot_into_subplot_run_args.

(** The last two statements of [update_plot], for a table [res]. *)
Definition write_table (self : loc) (res : ndarray) : M unit :=
  s <- get_series self ;;
  xdata <- lift (column res 0) ;;
  ydata <- lift (column res 1) ;;
  set_xy_data s xdata ydata ;;;
  s' <- get_series self ;;
  update s'.

(** The store after the four reads and the call of [update_plot]. *)
Definition after_call (w : World) (r1 r2 r3 r4 : loc) (ewt chloro carot N : Q)
    (sim' : SimState) : World :=
  set_sim sim'
    (log (EvRun (update_plot_args ewt chloro carot N))
       (log (EvGetValue r4 N)
          (log (EvGetValue r3 carot)
             (log (EvGetValue r2 chloro)
                (log (EvGetValue r1 ewt) w))))).

Definition is_get_value (e : Event) : bool :=
  match e with EvGetValue _ _ => true | _ => false end.

(** The two calls of the module that reach the series of a panel. *)
Definition is_series_write (e : Event) : bool :=
  match e with EvSetXYData _ _ _ | EvSeriesUpdate _ => true | _ => false end.

(** The store after the first five statements of [add_slider]: the label
    and the widget exist, the dictionary has not been touched. *)
Definition slider_created (w : World) (self : loc) (caption : string)
    (defaultval minval maxval inc : Q) : World :=
  let r := fresh (dom (w_widgets w)) in
  mk_World (w_sim w) (w_series w) (w_controls w)
    (<[r := mk_FloatSpin self minval maxval inc defaultval (Some "%f") (Some 2)]>
       (w_widgets w))
    (w_plugins w) (w_bindings w) (w_plugin_is_GPL_compatible w) (w_imported w)
    (w_trace w ++
     [EvStaticText self caption;
      EvSizerAdd self (LabelChild caption) 0
        [wxLEFT; wxRIGHT; wxTOP; wxALIGN_CENTER_HORIZONTAL] 10;
      EvFloatSpin r]).

(** The store after a whole [add_slider], for a panel [c] whose dictionary
    was [d]. *)
Definition slider_added (w : World) (self : loc) (c : ProSAILControl)
    (d : gmap string loc) (name caption : string)
    (defaultval minval maxval inc : Q) (handler : Handler) : World :=
  let r := fresh (dom (w_widgets w)) in
  mk_World (w_sim w) (w_series w)
    (<[self := mk_control (pc_name c) (pc_series c) (Some (<[name := r]> d))]>
       (w_controls w))
    (<[r := mk_FloatSpin self minval maxval inc defaultval (Some "%f") (Some 2)]>
       (w_widgets w))
    (w_plugins w) ((self, r, handler) :: w_bindings w)
    (w_plugin_is_GPL_compatible w) (w_imported w)
    (w_trace w ++
     [EvStaticText self caption;
      EvSizerAdd self (LabelChild caption) 0
        [wxLEFT; wxRIGHT; wxTOP; wxALIGN_CENTER_HORIZONTAL] 10;
      EvFloatSpin r;
      EvSizerAdd self (SpinChild r) 0 [wxALL; wxEXPAND; wxALIGN_CENTER_HORIZONTAL] 0;
      EvBind self r handler]).

(** The store after the first two statements of [setup]. *)
Definition setup_started (w : World) (self parent : loc) (c : ProSAILControl) : World :=
  set_controls (<[self := mk_control (pc_name c) (pc_series c) (Some ∅)]> (w_controls w))
    (log (EvPanelSetup self parent) w).

(** The store after a whole [setup] of the panel [c]. *)
Definition setup_finished (w : World) (self parent : loc) (c : ProSAILControl) : World :=
  let h := update_plot_of self in
  let w0 := setup_started w self parent c in
  let d0 : gmap string loc := ∅ in
  let w1 := slider_added w0 self c d0 "EWT" "Equivalent Water Thickness (cm)"
                         0.1 0 1 0.01 h in
  let d1 := <["EWT" := fresh (dom (w_widgets w0))]> d0 in
  let w2 := slider_added w1 self c d1 "Chloro" "Chlorophyll content (ug per cm^2)"
                         40 0 100 1 h in
  let d2 := <["Chloro" := fresh (dom (w_widgets w1))]> d1 in
  let w3 := slider_added w2 self c d2 "Carot" "Carotenoid content (ug per cm^2)"
                         8 0 100 1 h in
  let d3 := <["Carot" := fresh (dom (w_widgets w2))]> d2 in
  slider_added w3 self c d3 "N" "Structure Coefficient" 1.5 0 3 0.1 h.

(** The x and y arrays handed to a series, at its construction or through
    [set_xy_data], in the order of a trace. *)
Fixpoint xy_written (t : list Event) : list (list Q * list Q) :=
  match t with
  | [] => []
  | EvSeriesInit _ _ xdata ydata :: t' => (xdata, ydata) :: xy_written t'
  | EvSetXYData _ xdata ydata :: t' => (xdata, ydata) :: xy_written t'
  | _ :: t' => xy_written t'
  end.

(** The store after the call of [plot_into_subplot]. *)
Definition plot_called (w : World) (sim' : SimState) : World :=
  set_sim sim' (log (EvRun plot_into_subplot_args) w).

(** The store after a whole [plot_into_subplot] that got the columns
    [xdata] and [ydata]. *)
Definition plotted (w : World) (subplot : loc) (sim' : SimState)
    (xdata ydata : list Q) : World :=
  let s := fresh (dom (w_series w)) in
  let panel := fresh (dom (w_controls w)) in
  mk_World sim'
    (<[s := mk_series "ProSAIL Output" xdata ydata [panel]]> (w_series w))
    (<[panel := mk_control "ProSAIL Parameters" s None]> (w_controls w))
    (w_widgets w) (w_plugins w) (w_bindings w)
    (w_plugin_is_GPL_compatible w) (w_imported w)
    (w_trace w ++
     [EvRun plot_into_subplot_args;
      EvSeriesInit s "ProSAIL Output" xdata ydata;
      EvPanelInit panel "ProSAIL Parameters";
      EvAddControlPanel s panel;
      EvAddDataSeries subplot s]).

(** What the module makes of the outcome of a simulator call: the two
    columns, or the exception of the call or of the column access. *)
Definition columns_of (r : Result ndarray) : Result (list Q * list Q) :=
  match r with
  | Raise e => Raise e
  | Ok res =>
      match column res 0, column res 1 with
      | Ok xdata, Ok ydata => Ok (xdata, ydata)
      | Ok _, Raise e => Raise e
      | Raise e, _ => Raise e
      end
  end.

(** ** Relations between the store before and after a computation *)

(** [m] takes every store to one related to it by [R], whether it returns
    or raises. *)
Definition preserves (R : World -> World -> Prop) {A : Type} (m : M A) : Prop :=
  forall w : World, R w (snd (m w)).

(** No registration is added and the module's entry in [sys.modules] is as
    before. *)
Definition same_registry (w w' : World) : Prop :=
  registrations w' = registrations w /\ w_imported w' = w_imported w.

(** The panel [self] keeps its attributes and no widget disappears. *)
Definition keeps_panel (self : loc) (w w' : World) : Prop :=
  (forall c, w_controls w !! self = Some c -> w_controls w' !! self = Some c) /\
  (forall r, is_Some (w_widgets w !! r) -> is_Some (w_widgets w' !! r)).

(** The four lookups and reads of [update_plot] succeed. *)
Definition sliders_ready (w : World) (self : loc) : Prop :=
  is_Some (slider_values w self).

Definition is_import (a : Action) : bool :=
  match a with ActImport => true | _ => false end.

(** The store after the module body. *)
Definition module_loaded (w : World) : World :=
  let p := fresh (dom (w_plugins w)) in
  let path := ["Optical RS"; "PyProSAIL"] in
  let descr := "Plot outputs from the PyProSAIL vegetation reflectance model" in
  mk_World (w_sim w) (w_series w) (w_controls w) (w_widgets w)
    (<[p := mk_plugin "PyProSAIL" ProSAILSeries_class (Some (path, descr))]>
       (w_plugins w))
    (w_bindings w) (Some true) (w_imported w)
    (w_trace w ++
     [EvPluginInit p "PyProSAIL"; EvSetMenuEntry p path descr; EvRegister p]).

(** The lookup of [key] in the panel's dictionary and the read of the
    widget found there succeed. *)
Definition readable (w : World) (self : loc) (key : string) : Prop :=
  exists (c : ProSAILControl) (d : gmap string loc) (r : loc),
    w_controls w !! self = Some c /\ pc_sliders c = Some d /\
    d !! key = Some r /\ is_Some (w_widgets w !! r).

(** ** Shapes of the store used by the further properties *)

(** The panels, widgets, bindings and plugins are the same. *)
Definition same_gui (w w' : World) : Prop :=
  w_controls w' = w_controls w /\ w_widgets w' = w_widgets w /\
  w_bindings w' = w_bindings w /\ w_plugins w' = w_plugins w /\
  w_imported w' = w_imported w.

(** Every panel belongs to a series that lists it as its only panel, and
    every series has one panel, which belongs to it. *)
Definition paired (w : World) : Prop :=
  (forall p c, w_controls w !! p = Some c ->
     exists ser, w_series w !! pc_series c = Some ser /\ s_control_panels ser = [p]) /\
  (forall s ser, w_series w !! s = Some ser ->
     exists p c, s_control_panels ser = [p] /\ w_controls w !! p = Some c /\
                 pc_series c = s).

(** The x and y arrays of every series have the same length. *)
Definition equal_lengths (w : World) : Prop :=
  forall s ser, w_series w !! s = Some ser ->
    length (s_xdata ser) = length (s_ydata ser).

(** What one action can do to the series and to the panels' links: leave
    the series alone and every panel with its series; rewrite the arrays of
    one series from the columns of one table; or add one series and one
    panel, linked to each other, with the columns of one table. *)
Definition one_step (w w' : World) : Prop :=
  (w_series w' = w_series w /\
   forall p, pc_series <$> w_controls w' !! p = pc_series <$> w_controls w !! p) \/
  (exists s ser res xdata ydata,
     w_controls w' = w_controls w /\
     w_series w !! s = Some ser /\
     column res 0 = Ok xdata /\ column res 1 = Ok ydata /\
     w_series w' =
       <[s := mk_series (s_name ser) xdata ydata (s_control_panels ser)]>
         (w_series w)) \/
  (exists res xdata ydata,
     column res 0 = Ok xdata /\ column res 1 = Ok ydata /\
     w_series w' =
       <[fresh (dom (w_series w)) :=
           mk_series "ProSAIL Output" xdata ydata [fresh (dom (w_controls w))]]>
         (w_series w) /\
     w_controls w' =
       <[fresh (dom (w_controls w)) :=
           mk_control "ProSAIL Parameters" (fresh (dom (w_series w))) None]>
         (w_controls w)).

(** The keys [update_plot] looks up, in the order of its reads, and the
    first of them that a dictionary lacks. *)
Definition slider_keys : list string := ["EWT"; "Chloro"; "Carot"; "N"].

Definition first_missing (d : gmap string loc) : option string :=
  List.find (fun k => bool_decide (d !! k = None)) slider_keys.

Ltac proj :=
  cbn [w_sim w_series w_controls w_widgets w_plugins w_bindings
       w_plugin_is_GPL_compatible w_imported w_trace
       set_sim set_series set_controls set_widgets set_plugins set_bindings
       set_plugin_is_GPL_compatible set_imported log fst snd
       fs_parent fs_min_val fs_max_val fs_increment fs_value fs_format fs_digits
       pc_name pc_series pc_sliders s_name s_xdata s_ydata s_control_panels] in *.

Ltac look := repeat (progress (proj; rewrite ?lookup_insert_eq)).

(** Two stores with the same fields are the same store. *)
Lemma World_eq (w1 w2 : World) :
  w_sim w1 = w_sim w2 ->
  w_series w1 = w_series w2 ->
  w_controls w1 = w_controls w2 ->
  w_widgets w1 = w_widgets w2 ->
  w_plugins w1 = w_plugins w2 ->
  w_bindings w1 = w_bindings w2 ->
  w_plugin_is_GPL_compatible w1 = w_plugin_is_GPL_compatible w2 ->
  w_imported w1 = w_imported w2 ->
  w_trace w1 = w_trace w2 ->
  w1 = w2.
Proof.
  destruct w1, w2. cbn. intros. by subst.
Qed.

Ltac expose :=
  f_equal; apply World_eq; proj;
  rewrite ?insert_insert_eq, <- ?app_assoc; reflexivity.

Lemma slider_value_eq (self : loc) (name : string) (w : World) :
  slider_value self name w =
  match reading w self name with
  | Ok (r, q) => (Ok q, log (EvGetValue r q) w)
  | Raise e => (Raise e, w)
  end.
Proof.
  unfold slider_value, reading, get_sliders, getitem, GetValue,
    with_control, with_widget, bind, ret, raise, effect.
  destruct (w_controls w !! self) as [c|]; [|reflexivity].
  destruct (pc_sliders c) as [d|]; [|reflexivity].
  destruct (d !! name) as [r|]; [|reflexivity].
  destruct (w_widgets w !! r) as [fs|]; reflexivity.
Qed.

Lemma reading_log (e : Event) (w : World) (self : loc) (name : string) :
  reading (log e w) self name = reading w self name.
Proof. reflexivity. Qed.

(** ** [update_plot], step by step *)

Lemma update_plot_eq (self : loc) (evnt : FloatSpinEvent) (w : World)
    (r1 r2 r3 r4 : loc) (ewt chloro carot N : Q) :
  reading w self "EWT" = Ok (r1, ewt) ->
  reading w self "Chloro" = Ok (r2, chloro) ->
  reading w self "Carot" = Ok (r3, carot) ->
  reading w self "N" = Ok (r4, N) ->
  update_plot self evnt w =
  match pyprosail_run (update_plot_args ewt chloro carot N) (w_sim w) with
  | (Ok res, sim') =>
      write_table self res (after_call w r1 r2 r3 r4 ewt chloro carot N sim')
  | (Raise e, sim') =>
      (Raise e, after_call w r1 r2 r3 r4 ewt chloro carot N sim')
  end.
Proof.
  intros H1 H2 H3 H4.
  unfold update_plot.
  unfold bind at 1. rewrite slider_value_eq, H1.
  unfold bind at 1. rewrite slider_value_eq, reading_log, H2.
  unfold bind at 1. rewrite slider_value_eq, !reading_log, H3.
  unfold bind at 1. rewrite slider_value_eq, !reading_log, H4.
  unfold bind at 1. unfold run at 1. proj.
  fold (update_plot_args ewt chloro carot N).
  destruct (pyprosail_run (update_plot_args ewt chloro carot N) (w_sim w))
    as [[res|e] sim']; reflexivity.
Qed.

(** A read that fails ends the handler before the simulator is called and
    before the series is touched. *)
Lemma update_plot_unreadable (self : loc) (evnt : FloatSpinEvent) (w : World) :
  slider_values w self = None ->
  exists (e : Exn) (w1 : World),
    update_plot self evnt w = (Raise e, w1) /\
    w_sim w1 = w_sim w /\ w_series w1 = w_series w /\
    run_calls (drop (length (w_trace w)) (w_trace w1)) = [].
Proof.
  unfold slider_values. intros Hnone.
  unfold update_plot.
  unfold bind at 1. rewrite slider_value_eq.
  destruct (reading w self "EWT") as [[r1 ewt]|e1].
  2:{ eexists _, _. split; [reflexivity|]. by rewrite drop_all. }
  unfold bind at 1. rewrite slider_value_eq, reading_log.
  destruct (reading w self "Chloro") as [[r2 chloro]|e2].
  2:{ eexists _, _. split; [reflexivity|]. proj. by rewrite drop_app_length. }
  unfold bind at 1. rewrite slider_value_eq, !reading_log.
  destruct (reading w self "Carot") as [[r3 carot]|e3].
  2:{ eexists _, _. split; [reflexivity|]. proj.
      by rewrite <- !app_assoc, drop_app_length. }
  unfold bind at 1. rewrite slider_value_eq, !reading_log.
  destruct (reading w self "N") as [[r4 N]|e4].
  2:{ eexists _, _. split; [reflexivity|]. proj.
      by rewrite <- !app_assoc, drop_app_length. }
  discriminate.
Qed.

Lemma slider_values_Some (w : World) (self : loc) (ewt chloro carot N : Q) :
  slider_values w self = Some (ewt, chloro, carot, N) ->
  exists r1 r2 r3 r4 : loc,
    reading w self "EWT" = Ok (r1, ewt) /\
    reading w self "Chloro" = Ok (r2, chloro) /\
    reading w self "Carot" = Ok (r3, carot) /\
    reading w self "N" = Ok (r4, N).
Proof.
  unfold slider_values.
  destruct (reading w self "EWT") as [[r1 q1]|]; [|discriminate].
  destruct (reading w self "Chloro") as [[r2 q2]|]; [|discriminate].
  destruct (reading w self "Carot") as [[r3 q3]|]; [|discriminate].
  destruct (reading w self "N") as [[r4 q4]|]; [|discriminate].
  intros [= <- <- <- <-]. by exists r1, r2, r3, r4.
Qed.

(** The outcome of the last two statements. *)
Lemma write_table_eq (self : loc) (res : ndarray) (w : World) :
  write_table self res w =
  match w_controls w !! self with
  | None => (Raise (AttributeError "series"), w)
  | Some c =>
      match column res 0, column res 1 with
      | Raise e, _ => (Raise e, w)
      | Ok _, Raise e => (Raise e, w)
      | Ok xdata, Ok ydata =>
          match w_series w !! pc_series c with
          | None => (Raise (AttributeError "set_xy_data"), w)
          | Some ser =>
              (Ok tt,
               log (EvSeriesUpdate (pc_series c))
                 (log (EvSetXYData (pc_series c) xdata ydata)
                    (set_series
                       (<[pc_series c :=
                            mk_series (s_name ser) xdata ydata (s_control_panels ser)]>
                          (w_series w)) w)))
          end
      end
  end.
Proof.
  unfold write_table, get_series, set_xy_data, update, with_control,
    with_series, bind, lift, ret, effect.
  destruct (w_controls w !! self) as [c|] eqn:Hc; [|reflexivity].
  destruct (column res 0) as [xdata|]; [|reflexivity].
  destruct (column res 1) as [ydata|]; [|reflexivity].
  destruct (w_series w !! pc_series c) as [ser|] eqn:Hs; [|reflexivity].
  proj. rewrite Hc. proj. rewrite lookup_insert_eq. reflexivity.
Qed.

Lemma events_of_eq {A : Type} (m : M A) (w w' : World) (r : Result A) (evs : list Event) :
  m w = (r, w') -> w_trace w' = w_trace w ++ evs -> events_of m w = evs.
Proof.
  intros Hm Ht. unfold events_of. rewrite Hm. cbn [snd].
  by rewrite Ht, drop_app_length.
Qed.

(** * Properties of [update_plot] *)

(** C1. When [update_plot] returns normally, it has called the simulator
    exactly once, the call returned a table [res], the x array of the
    panel's series is column 0 of [res] and its y array is column 1 of
    [res] whatever they were before, and the trace ends with the call, the
    write [set_xy_data] and then the redraw [update], in that order. *)
Theorem update_plot_writes_table (self : loc) (evnt : FloatSpinEvent) (w w' : World) :
  update_plot self evnt w = (Ok tt, w') ->
  exists (args : list PyVal) (res : ndarray) (xdata ydata : list Q)
         (s : loc) (reads : list Event),
    run_calls (events_of (update_plot self evnt) w) = [args] /\
    pyprosail_run args (w_sim w) = (Ok res, w_sim w') /\
    column res 0 = Ok xdata /\
    column res 1 = Ok ydata /\
    pc_series <$> w_controls w' !! self = Some s /\
    s_xdata <$> w_series w' !! s = Some xdata /\
    s_ydata <$> w_series w' !! s = Some ydata /\
    Forall (fun e => is_get_value e = true) reads /\
    events_of (update_plot self evnt) w =
      reads ++ [EvRun args; EvSetXYData s xdata ydata; EvSeriesUpdate s].
Proof.
  intros Hup.
  destruct (slider_values w self) as [[[[ewt chloro] carot] N]|] eqn:Hv.
  2:{ destruct (update_plot_unreadable self evnt w Hv) as (e & w1 & Heq & _).
      congruence. }
  destruct (slider_values_Some _ _ _ _ _ _ Hv) as (r1 & r2 & r3 & r4 & H1 & H2 & H3 & H4).
  pose proof (update_plot_eq self evnt w _ _ _ _ _ _ _ _ H1 H2 H3 H4) as Heq.
  rewrite Hup in Heq.
  destruct (pyprosail_run (update_plot_args ewt chloro carot N) (w_sim w))
    as [[res|e] sim'] eqn:Hrun; [|discriminate].
  rewrite write_table_eq in Heq. unfold after_call in Heq. proj.
  destruct (w_controls w !! self) as [c|] eqn:Hc; [|discriminate].
  destruct (column res 0) as [xdata|] eqn:Hx; [|discriminate].
  destruct (column res 1) as [ydata|] eqn:Hy; [|discriminate].
  destruct (w_series w !! pc_series c) as [ser|] eqn:Hs; [|discriminate].
  injection Heq as ->.
  assert (Hev : events_of (update_plot self evnt) w =
                [EvGetValue r1 ewt; EvGetValue r2 chloro; EvGetValue r3 carot;
                 EvGetValue r4 N] ++
                [EvRun (update_plot_args ewt chloro carot N);
                 EvSetXYData (pc_series c) xdata ydata;
                 EvSeriesUpdate (pc_series c)]).
  { eapply events_of_eq; [exact Hup|]. proj. by rewrite <- !app_assoc. }
  exists (update_plot_args ewt chloro carot N), res, xdata, ydata, (pc_series c),
    [EvGetValue r1 ewt; EvGetValue r2 chloro; EvGetValue r3 carot; EvGetValue r4 N].
  proj. rewrite Hc, lookup_insert_eq, Hev.
  repeat split; try done.
  repeat constructor.
Qed.

(** C6. If the call of [pyprosail.run] in [update_plot] raises, the handler
    ends with that same exception.  The simulator was called once, with
    the values as they were read, and nothing but the four reads and that
    call has reached the libraries. *)
Theorem update_plot_propagates_exception (self : loc) (evnt : FloatSpinEvent)
    (w : World) (ewt chloro carot N : Q) (e : Exn) (sim' : SimState) :
  slider_values w self = Some (ewt, chloro, carot, N) ->
  pyprosail_run (update_plot_args ewt chloro carot N) (w_sim w) = (Raise e, sim') ->
  fst (update_plot self evnt w) = Raise e /\
  w_sim (snd (update_plot self evnt w)) = sim' /\
  run_calls (events_of (update_plot self evnt) w) =
    [update_plot_args ewt chloro carot N] /\
  exists r1 r2 r3 r4 : loc,
    events_of (update_plot self evnt) w =
      [EvGetValue r1 ewt; EvGetValue r2 chloro; EvGetValue r3 carot;
       EvGetValue r4 N; EvRun (update_plot_args ewt chloro carot N)].
Proof.
  intros Hv Hrun.
  destruct (slider_values_Some _ _ _ _ _ _ Hv) as (r1 & r2 & r3 & r4 & H1 & H2 & H3 & H4).
  pose proof (update_plot_eq self evnt w _ _ _ _ _ _ _ _ H1 H2 H3 H4) as Heq.
  rewrite Hrun in Heq.
  assert (Hev : events_of (update_plot self evnt) w =
                [EvGetValue r1 ewt; EvGetValue r2 chloro; EvGetValue r3 carot;
                 EvGetValue r4 N; EvRun (update_plot_args ewt chloro carot N)]).
  { eapply events_of_eq; [exact Heq|]. unfold after_call. proj.
    by rewrite <- !app_assoc. }
  rewrite Hev, Heq. repeat split. by exists r1, r2, r3, r4.
Qed.

(** C9. If the call of [pyprosail.run] in [update_plot] raises, the store of
    series is what it was before the event, so the x and y arrays of the
    panel's series are unchanged, and neither [set_xy_data] nor [update]
    has been called: the handler's events are reads followed by the call. *)
Theorem update_plot_failure_keeps_series (self : loc) (evnt : FloatSpinEvent)
    (w : World) (ewt chloro carot N : Q) (e : Exn) (sim' : SimState) :
  slider_values w self = Some (ewt, chloro, carot, N) ->
  pyprosail_run (update_plot_args ewt chloro carot N) (w_sim w) = (Raise e, sim') ->
  fst (update_plot self evnt w) = Raise e /\
  w_series (snd (update_plot self evnt w)) = w_series w /\
  series_xy (snd (update_plot self evnt w)) self = series_xy w self /\
  Forall (fun ev => is_series_write ev = false) (events_of (update_plot self evnt) w) /\
  exists reads : list Event,
    Forall (fun ev => is_get_value ev = true) reads /\
    events_of (update_plot self evnt) w =
      reads ++ [EvRun (update_plot_args ewt chloro carot N)].
Proof.
  intros Hv Hrun.
  destruct (slider_values_Some _ _ _ _ _ _ Hv) as (r1 & r2 & r3 & r4 & H1 & H2 & H3 & H4).
  pose proof (update_plot_eq self evnt w _ _ _ _ _ _ _ _ H1 H2 H3 H4) as Heq.
  rewrite Hrun in Heq.
  assert (Hev : events_of (update_plot self evnt) w =
                [EvGetValue r1 ewt; EvGetValue r2 chloro; EvGetValue r3 carot;
                 EvGetValue r4 N] ++ [EvRun (update_plot_args ewt chloro carot N)]).
  { eapply events_of_eq; [exact Heq|]. unfold after_call. proj.
    by rewrite <- !app_assoc. }
  rewrite Hev, Heq. unfold after_call, series_xy. proj.
  repeat split.
  - repeat constructor.
  - eexists. split; [|reflexivity]. repeat constructor.
Qed.

(** * [add_slider] and [setup] *)

Lemma add_slider_eq (self : loc) (name caption : string)
    (defaultval minval maxval inc : Q) (handler : Handler) (w : World) :
  add_slider self name caption defaultval minval maxval inc handler w =
  match w_controls w !! self with
  | Some c =>
      match pc_sliders c with
      | Some d =>
          (Ok tt, slider_added w self c d name caption defaultval minval maxval
                               inc handler)
      | None =>
          (Raise (AttributeError "sliders"),
           slider_created w self caption defaultval minval maxval inc)
      end
  | None =>
      (Raise (AttributeError "sliders"),
       slider_created w self caption defaultval minval maxval inc)
  end.
Proof.
  unfold add_slider, StaticText, Add, FloatSpin_new, SetFormat, SetDigits,
    get_sliders, set_sliders, getitem, GetId, EVT_FLOATSPIN,
    with_control, with_widget, slider_added, slider_created,
    bind, ret, raise, effect.
  look.
  destruct (w_controls w !! self) as [c|] eqn:Hc.
  2:{ expose. }
  destruct (pc_sliders c) as [d|] eqn:Hd.
  2:{ expose. }
  repeat (progress (look; rewrite ?Hc, ?Hd)).
  expose.
Qed.

Lemma setup_eq (self parent : loc) (w : World) (c : ProSAILControl) :
  w_controls w !! self = Some c ->
  setup self parent w = (Ok tt, setup_finished w self parent c).
Proof.
  intros Hc. unfold setup, setup_finished.
  unfold bind at 1. unfold effect at 1.
  unfold bind at 1. unfold set_sliders at 1, with_control, effect. proj.
  rewrite Hc. fold (setup_started w self parent c).
  set (w0 := setup_started w self parent c).
  assert (H0 : w_controls w0 !! self = Some (mk_control (pc_name c) (pc_series c) (Some ∅))).
  { unfold w0, setup_started. proj. apply lookup_insert_eq. }
  unfold bind at 1. rewrite add_slider_eq, H0. cbn [pc_sliders].
  change (slider_added w0 self _ ∅) with (slider_added w0 self c ∅).
  set (w1 := slider_added w0 self c ∅ _ _ _ _ _ _ _).
  unfold bind at 1. rewrite add_slider_eq.
  replace (w_controls w1 !! self) with
    (Some (mk_control (pc_name c) (pc_series c)
                      (Some (<["EWT" := fresh (dom (w_widgets w0))]> ∅))))
    by (unfold w1, slider_added; proj; by rewrite lookup_insert_eq).
  cbn [pc_sliders].
  change (slider_added w1 self _) with (slider_added w1 self c).
  set (w2 := slider_added w1 self c _ _ _ _ _ _ _ _).
  unfold bind at 1. rewrite add_slider_eq.
  replace (w_controls w2 !! self) with
    (Some (mk_control (pc_name c) (pc_series c)
             (Some (<["Chloro" := fresh (dom (w_widgets w1))]>
                      (<["EWT" := fresh (dom (w_widgets w0))]> ∅)))))
    by (unfold w2, slider_added; proj; by rewrite lookup_insert_eq).
  cbn [pc_sliders].
  change (slider_added w2 self _) with (slider_added w2 self c).
  set (w3 := slider_added w2 self c _ _ _ _ _ _ _ _).
  rewrite add_slider_eq.
  replace (w_controls w3 !! self) with
    (Some (mk_control (pc_name c) (pc_series c)
             (Some (<["Carot" := fresh (dom (w_widgets w2))]>
                      (<["Chloro" := fresh (dom (w_widgets w1))]>
                         (<["EWT" := fresh (dom (w_widgets w0))]> ∅))))))
    by (unfold w3, slider_added; proj; by rewrite lookup_insert_eq).
  cbn [pc_sliders]. reflexivity.
Qed.

Lemma fresh_lookup_None {A : Type} (m : gmap loc A) : m !! fresh (dom m) = None.
Proof. apply not_elem_of_dom, is_fresh. Qed.

(** Four allocations in a row give four distinct new keys. *)
Lemma four_fresh {A : Type} (W0 : gmap loc A) (f1 f2 f3 : A) :
  let r1 := fresh (dom W0) in
  let r2 := fresh (dom (<[r1 := f1]> W0)) in
  let r3 := fresh (dom (<[r2 := f2]> (<[r1 := f1]> W0))) in
  let r4 := fresh (dom (<[r3 := f3]> (<[r2 := f2]> (<[r1 := f1]> W0)))) in
  NoDup [r1; r2; r3; r4] /\ Forall (fun r => W0 !! r = None) [r1; r2; r3; r4].
Proof.
  intros r1 r2 r3 r4.
  pose proof (fresh_lookup_None W0) as F1. fold r1 in F1.
  pose proof (fresh_lookup_None (<[r1 := f1]> W0)) as F2. fold r2 in F2.
  pose proof (fresh_lookup_None (<[r2 := f2]> (<[r1 := f1]> W0))) as F3. fold r3 in F3.
  pose proof (fresh_lookup_None (<[r3 := f3]> (<[r2 := f2]> (<[r1 := f1]> W0)))) as F4.
  fold r4 in F4.
  clearbody r1 r2 r3 r4.
  apply lookup_insert_None in F2 as [F2 N12].
  apply lookup_insert_None in F3 as [F3 N23].
  apply lookup_insert_None in F3 as [F3 N13].
  apply lookup_insert_None in F4 as [F4 N34].
  apply lookup_insert_None in F4 as [F4 N24].
  apply lookup_insert_None in F4 as [F4 N14].
  split.
  - rewrite !NoDup_cons, !not_elem_of_cons.
    repeat split; try apply not_elem_of_nil; try congruence. apply NoDup_nil_2.
  - repeat constructor; done.
Qed.

Lemma setup_widgets (self parent : loc) (w : World) (c : ProSAILControl) :
  w_widgets (setup_finished w self parent c) =
  let f1 := mk_FloatSpin self 0 1 0.01 0.1 (Some "%f") (Some 2) in
  let f2 := mk_FloatSpin self 0 100 1 40 (Some "%f") (Some 2) in
  let f3 := mk_FloatSpin self 0 100 1 8 (Some "%f") (Some 2) in
  let f4 := mk_FloatSpin self 0 3 0.1 1.5 (Some "%f") (Some 2) in
  let r1 := fresh (dom (w_widgets w)) in
  let r2 := fresh (dom (<[r1 := f1]> (w_widgets w))) in
  let r3 := fresh (dom (<[r2 := f2]> (<[r1 := f1]> (w_widgets w)))) in
  let r4 := fresh (dom (<[r3 := f3]> (<[r2 := f2]> (<[r1 := f1]> (w_widgets w))))) in
  <[r4 := f4]> (<[r3 := f3]> (<[r2 := f2]> (<[r1 := f1]> (w_widgets w)))).
Proof. reflexivity. Qed.

Lemma setup_sliders (self parent : loc) (w : World) (c : ProSAILControl) :
  w_controls (setup_finished w self parent c) !! self =
  let f1 := mk_FloatSpin self 0 1 0.01 0.1 (Some "%f") (Some 2) in
  let f2 := mk_FloatSpin self 0 100 1 40 (Some "%f") (Some 2) in
  let f3 := mk_FloatSpin self 0 100 1 8 (Some "%f") (Some 2) in
  let r1 := fresh (dom (w_widgets w)) in
  let r2 := fresh (dom (<[r1 := f1]> (w_widgets w))) in
  let r3 := fresh (dom (<[r2 := f2]> (<[r1 := f1]> (w_widgets w)))) in
  let r4 := fresh (dom (<[r3 := f3]> (<[r2 := f2]> (<[r1 := f1]> (w_widgets w))))) in
  Some (mk_control (pc_name c) (pc_series c)
          (Some (<["N" := r4]> (<["Carot" := r3]> (<["Chloro" := r2]>
                   (<["EWT" := r1]> ∅)))))).
Proof.
  unfold setup_finished, slider_added, setup_started. proj.
  by rewrite lookup_insert_eq.
Qed.

(** After [setup] the sliders hold the defaults. *)
Lemma setup_slider_values (self parent : loc) (w : World) (c : ProSAILControl) :
  slider_values (setup_finished w self parent c) self = Some (0.1, 40, 8, 1.5)%Q.
Proof.
  unfold slider_values, reading.
  rewrite setup_sliders, setup_widgets. cbv zeta. proj.
  destruct (four_fresh (w_widgets w)
              (mk_FloatSpin self 0 1 0.01 0.1 (Some "%f") (Some 2))
              (mk_FloatSpin self 0 100 1 40 (Some "%f") (Some 2))
              (mk_FloatSpin self 0 100 1 8 (Some "%f") (Some 2))) as [Hnd _].
  cbv zeta in Hnd.
  set (r1 := fresh (dom (w_widgets w))) in *.
  set (r2 := fresh (dom (<[r1 := _]> (w_widgets w)))) in *.
  set (r3 := fresh (dom (<[r2 := _]> _))) in *.
  set (r4 := fresh (dom (<[r3 := _]> _))) in *.
  clearbody r1 r2 r3 r4.
  assert (r1 <> r2 /\ r1 <> r3 /\ r1 <> r4 /\ r2 <> r3 /\ r2 <> r4 /\ r3 <> r4)
    as (N12 & N13 & N14 & N23 & N24 & N34).
  { apply NoDup_cons in Hnd as [X1 Hnd]. apply NoDup_cons in Hnd as [X2 Hnd].
    apply NoDup_cons in Hnd as [X3 _]. set_solver. }
  by simplify_map_eq.
Qed.

(** C4. [setup] on an existing panel returns normally and creates four new
    FloatSpin widgets, distinct and not in the store before.  The panel's
    dictionary [sliders] has exactly the keys EWT, Chloro, Carot and N; the
    widgets carry (value, min, max, increment) = (0.1, 0, 1, 0.01),
    (40, 0, 100, 1), (8, 0, 100, 1) and (1.5, 0, 3, 0.1); each widget's id
    is bound to the panel's [update_plot], and a change event of any of
    the four runs [update_plot] of the panel. *)
Theorem setup_builds_four_sliders (self parent : loc) (w : World) (c : ProSAILControl) :
  w_controls w !! self = Some c ->
  exists (r1 r2 r3 r4 : loc) (w' : World),
    setup self parent w = (Ok tt, w') /\
    NoDup [r1; r2; r3; r4] /\
    Forall (fun r => w_widgets w !! r = None) [r1; r2; r3; r4] /\
    pc_sliders <$> w_controls w' !! self =
      Some (Some (<["N" := r4]> (<["Carot" := r3]> (<["Chloro" := r2]>
                    (<["EWT" := r1]> ∅))))) /\
    w_widgets w' =
      <[r4 := mk_FloatSpin self 0 3 0.1 1.5 (Some "%f") (Some 2)]>
        (<[r3 := mk_FloatSpin self 0 100 1 8 (Some "%f") (Some 2)]>
           (<[r2 := mk_FloatSpin self 0 100 1 40 (Some "%f") (Some 2)]>
              (<[r1 := mk_FloatSpin self 0 1 0.01 0.1 (Some "%f") (Some 2)]>
                 (w_widgets w)))) /\
    size (w_widgets w') = size (w_widgets w) + 4 /\
    w_bindings w' =
      [(self, r4, update_plot_of self); (self, r3, update_plot_of self);
       (self, r2, update_plot_of self); (self, r1, update_plot_of self)]
      ++ w_bindings w /\
    Forall (fun r => fire_EVT_FLOATSPIN r w' = update_plot self (mk_event r) w')
           [r1; r2; r3; r4].
Proof.
  intros Hc.
  destruct (four_fresh (w_widgets w)
              (mk_FloatSpin self 0 1 0.01 0.1 (Some "%f") (Some 2))
              (mk_FloatSpin self 0 100 1 40 (Some "%f") (Some 2))
              (mk_FloatSpin self 0 100 1 8 (Some "%f") (Some 2))) as [Hnd Hnew].
  cbv zeta in Hnd, Hnew.
  pose proof (setup_sliders self parent w c) as Hd.
  pose proof (setup_widgets self parent w c) as HW.
  assert (Hb : w_bindings (setup_finished w self parent c) =
               let f1 := mk_FloatSpin self 0 1 0.01 0.1 (Some "%f") (Some 2) in
               let f2 := mk_FloatSpin self 0 100 1 40 (Some "%f") (Some 2) in
               let f3 := mk_FloatSpin self 0 100 1 8 (Some "%f") (Some 2) in
               let r1 := fresh (dom (w_widgets w)) in
               let r2 := fresh (dom (<[r1 := f1]> (w_widgets w))) in
               let r3 := fresh (dom (<[r2 := f2]> (<[r1 := f1]> (w_widgets w)))) in
               let r4 := fresh (dom (<[r3 := f3]> (<[r2 := f2]>
                                      (<[r1 := f1]> (w_widgets w))))) in
               [(self, r4, update_plot_of self); (self, r3, update_plot_of self);
                (self, r2, update_plot_of self); (self, r1, update_plot_of self)]
               ++ w_bindings w) by reflexivity.
  cbv zeta in Hd, HW, Hb.
  set (r1 := fresh (dom (w_widgets w))) in *.
  set (r2 := fresh (dom (<[r1 := _]> (w_widgets w)))) in *.
  set (r3 := fresh (dom (<[r2 := _]> _))) in *.
  set (r4 := fresh (dom (<[r3 := _]> _))) in *.
  clearbody r1 r2 r3 r4.
  assert (r1 <> r2 /\ r1 <> r3 /\ r1 <> r4 /\ r2 <> r3 /\ r2 <> r4 /\ r3 <> r4)
    as (N12 & N13 & N14 & N23 & N24 & N34).
  { pose proof Hnd as X. apply NoDup_cons in X as [X1 X].
    apply NoDup_cons in X as [X2 X]. apply NoDup_cons in X as [X3 _]. set_solver. }
  assert (w_widgets w !! r1 = None /\ w_widgets w !! r2 = None /\
          w_widgets w !! r3 = None /\ w_widgets w !! r4 = None)
    as (F1 & F2 & F3 & F4).
  { rewrite !Forall_cons in Hnew. tauto. }
  exists r1, r2, r3, r4, (setup_finished w self parent c).
  split; [by apply setup_eq|].
  split; [exact Hnd|].
  split; [exact Hnew|].
  split; [by rewrite Hd|].
  split; [exact HW|].
  split.
  { rewrite HW.
    rewrite map_size_insert_None by (by rewrite ?lookup_insert_ne by done).
    rewrite map_size_insert_None by (by rewrite ?lookup_insert_ne by done).
    rewrite map_size_insert_None by (by rewrite ?lookup_insert_ne by done).
    rewrite map_size_insert_None by done. lia. }
  split; [exact Hb|].
  assert (Hfire : forall r, r ∈ [r1; r2; r3; r4] ->
            fire_EVT_FLOATSPIN r (setup_finished w self parent c) =
            update_plot self (mk_event r) (setup_finished w self parent c)).
  { intros r Hr. unfold fire_EVT_FLOATSPIN. rewrite Hb. cbn [find app fst snd].
    destruct (Nat.eqb r4 r) eqn:E4; [reflexivity|].
    destruct (Nat.eqb r3 r) eqn:E3; [reflexivity|].
    destruct (Nat.eqb r2 r) eqn:E2; [reflexivity|].
    destruct (Nat.eqb r1 r) eqn:E1; [reflexivity|].
    apply Nat.eqb_neq in E1, E2, E3, E4.
    rewrite !elem_of_cons, elem_of_nil in Hr. intuition congruence. }
  repeat constructor; apply Hfire; rewrite !elem_of_cons; intuition.
Qed.

(** * [plot_into_subplot] *)

Lemma plot_into_subplot_eq (self subplot : loc) (w : World) :
  plot_into_subplot self subplot w =
  match pyprosail_run plot_into_subplot_args (w_sim w) with
  | (Ok res, sim') =>
      match column res 0, column res 1 with
      | Ok xdata, Ok ydata => (Ok true, plotted w subplot sim' xdata ydata)
      | Ok _, Raise e => (Raise e, plot_called w sim')
      | Raise e, _ => (Raise e, plot_called w sim')
      end
  | (Raise e, sim') => (Raise e, plot_called w sim')
  end.
Proof.
  unfold plot_into_subplot, ProSAILSeries_init, XYDataSeries_init,
    ProSAILControl_init, add_control_panel, add_data_series, with_series,
    plot_called, plotted, run, bind, ret, lift, effect.
  fold plot_into_subplot_args.
  destruct (pyprosail_run plot_into_subplot_args (w_sim w)) as [[res|e] sim'];
    [|reflexivity].
  destruct (column res 0) as [xdata|]; [|reflexivity].
  destruct (column res 1) as [ydata|]; [|reflexivity].
  look. expose.
Qed.

(** C5. Whenever [plot_into_subplot] returns normally, for any plugin
    object, subplot and store, the value it returns is [True]. *)
Theorem plot_into_subplot_returns_True (self subplot : loc) (w w' : World) (b : bool) :
  plot_into_subplot self subplot w = (Ok b, w') -> b = true.
Proof.
  rewrite plot_into_subplot_eq.
  destruct (pyprosail_run plot_into_subplot_args (w_sim w)) as [[res|e] sim'];
    [|discriminate].
  destruct (column res 0) as [xdata|]; [|discriminate].
  destruct (column res 1) as [ydata|]; [|discriminate].
  by intros [= <- _].
Qed.

(** * The simulator calls *)

(** With readable sliders, [update_plot] reads the four values in the order
    EWT, Chloro, Carot, N and then calls the simulator, once. *)
Lemma update_plot_calls (self : loc) (evnt : FloatSpinEvent) (w : World)
    (r1 r2 r3 r4 : loc) (ewt chloro carot N : Q) :
  reading w self "EWT" = Ok (r1, ewt) ->
  reading w self "Chloro" = Ok (r2, chloro) ->
  reading w self "Carot" = Ok (r3, carot) ->
  reading w self "N" = Ok (r4, N) ->
  exists rest : list Event,
    events_of (update_plot self evnt) w =
      [EvGetValue r1 ewt; EvGetValue r2 chloro; EvGetValue r3 carot;
       EvGetValue r4 N; EvRun (update_plot_args ewt chloro carot N)] ++ rest /\
    run_calls rest = [].
Proof.
  intros H1 H2 H3 H4.
  pose proof (update_plot_eq self evnt w _ _ _ _ _ _ _ _ H1 H2 H3 H4) as Heq.
  destruct (pyprosail_run (update_plot_args ewt chloro carot N) (w_sim w))
    as [[res|e] sim'].
  2:{ exists []. split; [|done]. eapply events_of_eq; [exact Heq|].
      unfold after_call. proj. by rewrite <- !app_assoc. }
  rewrite write_table_eq in Heq. unfold after_call in Heq. proj.
  destruct (w_controls w !! self) as [c|].
  2:{ exists []. split; [|done]. eapply events_of_eq; [exact Heq|].
      proj. by rewrite <- !app_assoc. }
  destruct (column res 0) as [xdata|].
  2:{ exists []. split; [|done]. eapply events_of_eq; [exact Heq|].
      proj. by rewrite <- !app_assoc. }
  destruct (column res 1) as [ydata|].
  2:{ exists []. split; [|done]. eapply events_of_eq; [exact Heq|].
      proj. by rewrite <- !app_assoc. }
  destruct (w_series w !! pc_series c) as [ser|].
  2:{ exists []. split; [|done]. eapply events_of_eq; [exact Heq|].
      proj. by rewrite <- !app_assoc. }
  exists [EvSetXYData (pc_series c) xdata ydata; EvSeriesUpdate (pc_series c)].
  split; [|done]. eapply events_of_eq; [exact Heq|].
  proj. by rewrite <- !app_assoc.
Qed.

Lemma plot_into_subplot_calls (self subplot : loc) (w : World) :
  run_calls (events_of (plot_into_subplot self subplot) w) = [plot_into_subplot_args].
Proof.
  pose proof (plot_into_subplot_eq self subplot w) as Heq.
  destruct (pyprosail_run plot_into_subplot_args (w_sim w)) as [[res|e] sim'].
  2:{ erewrite events_of_eq; [|exact Heq|reflexivity]. done. }
  destruct (column res 0) as [xdata|].
  2:{ erewrite events_of_eq; [|exact Heq|reflexivity]. done. }
  destruct (column res 1) as [ydata|].
  2:{ erewrite events_of_eq; [|exact Heq|reflexivity]. done. }
  erewrite events_of_eq; [|exact Heq|reflexivity]. done.
Qed.

(** C2 (as the code has it). With readable sliders, [update_plot] reads the
    four current values, EWT, Chloro, Carot and N, and calls
    [pyprosail.run] once with the tuple (N, chloro, carot, 0, ewt, 0.009,
    1, 3, 0.01, 30, 0, 10, 0, Planophile): 14 positional arguments, of
    which 4 are the values read and 10 are fixed, namely 9 numeric literals
    and the selector [pyprosail.Planophile]. *)
Theorem update_plot_call_has_ten_constants (self : loc) (evnt : FloatSpinEvent)
    (w : World) (r1 r2 r3 r4 : loc) (ewt chloro carot N : Q) :
  reading w self "EWT" = Ok (r1, ewt) ->
  reading w self "Chloro" = Ok (r2, chloro) ->
  reading w self "Carot" = Ok (r3, carot) ->
  reading w self "N" = Ok (r4, N) ->
  (exists rest : list Event,
     events_of (update_plot self evnt) w =
       [EvGetValue r1 ewt; EvGetValue r2 chloro; EvGetValue r3 carot;
        EvGetValue r4 N;
        EvRun [Num N; Num chloro; Num carot; Num 0; Num ewt; Num 0.009; Num 1;
               Num 3; Num 0.01; Num 30; Num 0; Num 10; Num 0; Planophile]]
       ++ rest /\
     run_calls rest = []) /\
  length update_plot_run_args = 14 /\
  count_args is_local update_plot_run_args = 4 /\
  count_args is_fixed update_plot_run_args = 10 /\
  count_args is_numeric_constant update_plot_run_args = 9 /\
  count_args is_categorical_constant update_plot_run_args = 1.
Proof.
  intros H1 H2 H3 H4. split; [|done].
  exact (update_plot_calls self evnt w _ _ _ _ _ _ _ _ H1 H2 H3 H4).
Qed.


(** C3. The simulator call of [plot_into_subplot] has the argument tuple
    (1.5, 40, 8, 0, 0.1, 0.009, 1, 3, 0.01, 30, 0, 10, 0, Planophile), and
    that is the tuple [update_plot] passes on a panel fresh from [setup],
    whose sliders hold EWT = 0.1, Chloro = 40, Carot = 8 and N = 1.5. *)
Theorem default_call_is_update_plot_call (self parent : loc) (evnt : FloatSpinEvent)
    (w : World) (c : ProSAILControl) (plugin subplot : loc) (w0 : World) :
  w_controls w !! self = Some c ->
  fst (setup self parent w) = Ok tt /\
  slider_values (snd (setup self parent w)) self = Some (0.1, 40, 8, 1.5)%Q /\
  run_calls (events_of (plot_into_subplot plugin subplot) w0) =
    run_calls (events_of (update_plot self evnt) (snd (setup self parent w))) /\
  run_calls (events_of (plot_into_subplot plugin subplot) w0) =
    [[Num 1.5; Num 40; Num 8; Num 0; Num 0.1; Num 0.009; Num 1; Num 3; Num 0.01;
      Num 30; Num 0; Num 10; Num 0; Planophile]] /\
  update_plot_args 0.1 40 8 1.5 = plot_into_subplot_args.
Proof.
  intros Hc. rewrite (setup_eq self parent w c Hc). cbn [fst snd].
  pose proof (setup_slider_values self parent w c) as Hv.
  destruct (slider_values_Some _ _ _ _ _ _ Hv) as (r1 & r2 & r3 & r4 & H1 & H2 & H3 & H4).
  destruct (update_plot_calls self evnt _ _ _ _ _ _ _ _ _ H1 H2 H3 H4)
    as (rest & Hev & Hrest).
  rewrite Hev, plot_into_subplot_calls.
  cbn [run_calls app]. rewrite Hrest.
  repeat split; done.
Qed.

(** * Determinism *)

(** The result of [update_plot] and the arrays it writes are a function of
    the outcome of the simulator call. *)
Lemma update_plot_outcome (self : loc) (evnt : FloatSpinEvent) (w : World)
    (ewt chloro carot N : Q) :
  slider_values w self = Some (ewt, chloro, carot, N) ->
  is_Some (series_xy w self) ->
  match columns_of (fst (pyprosail_run (update_plot_args ewt chloro carot N) (w_sim w))) with
  | Ok (xdata, ydata) =>
      fst (update_plot self evnt w) = Ok tt /\
      xy_written (events_of (update_plot self evnt) w) = [(xdata, ydata)] /\
      series_xy (snd (update_plot self evnt w)) self = Some (xdata, ydata)
  | Raise e =>
      fst (update_plot self evnt w) = Raise e /\
      xy_written (events_of (update_plot self evnt) w) = [] /\
      series_xy (snd (update_plot self evnt w)) self = series_xy w self
  end.
Proof.
  intros Hv [xy Hxy].
  destruct (slider_values_Some _ _ _ _ _ _ Hv) as (r1 & r2 & r3 & r4 & H1 & H2 & H3 & H4).
  pose proof (update_plot_eq self evnt w _ _ _ _ _ _ _ _ H1 H2 H3 H4) as Heq.
  unfold series_xy in Hxy |- *.
  destruct (w_controls w !! self) as [c|] eqn:Hc; [|discriminate].
  cbn [mbind option_bind] in Hxy.
  destruct (w_series w !! pc_series c) as [ser|] eqn:Hs; [|discriminate].
  destruct (pyprosail_run (update_plot_args ewt chloro carot N) (w_sim w))
    as [[res|e] sim']; cbn [fst columns_of].
  2:{ erewrite events_of_eq; [|exact Heq|unfold after_call; proj; by rewrite <- !app_assoc].
      rewrite Heq. unfold after_call. proj. by rewrite Hc. }
  rewrite write_table_eq in Heq. unfold after_call in Heq. proj.
  rewrite Hc, Hs in Heq.
  destruct (column res 0) as [xdata|].
  2:{ erewrite events_of_eq; [|exact Heq|proj; by rewrite <- !app_assoc].
      rewrite Heq. proj. by rewrite Hc. }
  destruct (column res 1) as [ydata|].
  2:{ erewrite events_of_eq; [|exact Heq|proj; by rewrite <- !app_assoc].
      rewrite Heq. proj. by rewrite Hc. }
  erewrite events_of_eq; [|exact Heq|proj; by rewrite <- !app_assoc].
  rewrite Heq. proj. rewrite Hc. cbn [mbind option_bind].
  by rewrite lookup_insert_eq.
Qed.

Lemma plot_into_subplot_outcome (self subplot : loc) (w : World) :
  match columns_of (fst (pyprosail_run plot_into_subplot_args (w_sim w))) with
  | Ok (xdata, ydata) =>
      fst (plot_into_subplot self subplot w) = Ok true /\
      xy_written (events_of (plot_into_subplot self subplot) w) = [(xdata, ydata)]
  | Raise e =>
      fst (plot_into_subplot self subplot w) = Raise e /\
      xy_written (events_of (plot_into_subplot self subplot) w) = []
  end.
Proof.
  pose proof (plot_into_subplot_eq self subplot w) as Heq.
  destruct (pyprosail_run plot_into_subplot_args (w_sim w)) as [[res|e] sim'];
    cbn [fst columns_of].
  2:{ erewrite events_of_eq; [|exact Heq|reflexivity]. by rewrite Heq. }
  destruct (column res 0) as [xdata|].
  2:{ erewrite events_of_eq; [|exact Heq|reflexivity]. by rewrite Heq. }
  destruct (column res 1) as [ydata|].
  2:{ erewrite events_of_eq; [|exact Heq|reflexivity]. by rewrite Heq. }
  erewrite events_of_eq; [|exact Heq|reflexivity]. by rewrite Heq.
Qed.

(** C7. Let the simulator be a pure function of its arguments.  Two runs of
    [update_plot], on any two panels in any two stores, whose sliders hold
    the same four values end alike, write the same x and y arrays and, when
    they return, leave the same x and y arrays in the panels' series.  Two
    runs of [plot_into_subplot] end alike and hand the same x and y arrays
    to the series they create. *)
Theorem prosail_is_deterministic
    (self1 self2 : loc) (evnt1 evnt2 : FloatSpinEvent) (w1 w2 : World)
    (values : Q * Q * Q * Q)
    (plugin1 plugin2 subplot1 subplot2 : loc) (v1 v2 : World) :
  pure_simulator ->
  slider_values w1 self1 = Some values ->
  slider_values w2 self2 = Some values ->
  is_Some (series_xy w1 self1) ->
  is_Some (series_xy w2 self2) ->
  (fst (update_plot self1 evnt1 w1) = fst (update_plot self2 evnt2 w2) /\
   xy_written (events_of (update_plot self1 evnt1) w1) =
     xy_written (events_of (update_plot self2 evnt2) w2) /\
   (fst (update_plot self1 evnt1 w1) = Ok tt ->
    series_xy (snd (update_plot self1 evnt1 w1)) self1 =
      series_xy (snd (update_plot self2 evnt2 w2)) self2)) /\
  (fst (plot_into_subplot plugin1 subplot1 v1) =
     fst (plot_into_subplot plugin2 subplot2 v2) /\
   xy_written (events_of (plot_into_subplot plugin1 subplot1) v1) =
     xy_written (events_of (plot_into_subplot plugin2 subplot2) v2)).
Proof.
  intros Hpure Hv1 Hv2 Hs1 Hs2.
  destruct values as [[[ewt chloro] carot] N].
  split.
  - pose proof (update_plot_outcome self1 evnt1 w1 _ _ _ _ Hv1 Hs1) as O1.
    pose proof (update_plot_outcome self2 evnt2 w2 _ _ _ _ Hv2 Hs2) as O2.
    rewrite (Hpure _ (w_sim w1) (w_sim w2)) in O1.
    destruct (columns_of _) as [[xdata ydata]|e].
    + destruct O1 as (-> & -> & ->), O2 as (-> & -> & ->). done.
    + destruct O1 as (-> & -> & _), O2 as (-> & -> & _).
      repeat split; try done; try discriminate.
  - pose proof (plot_into_subplot_outcome plugin1 subplot1 v1) as O1.
    pose proof (plot_into_subplot_outcome plugin2 subplot2 v2) as O2.
    rewrite (Hpure _ (w_sim v1) (w_sim v2)) in O1.
    destruct (columns_of _) as [[xdata ydata]|e].
    + destruct O1 as (-> & ->), O2 as (-> & ->). done.
    + destruct O1 as (-> & ->), O2 as (-> & ->). done.
Qed.

(** * Frames: what a computation leaves alone *)

Section Frame.

Variable R : World -> World -> Prop.
Hypothesis R_refl : forall w, R w w.
Hypothesis R_trans : forall w1 w2 w3, R w1 w2 -> R w2 w3 -> R w1 w3.

Lemma preserves_ret {A : Type} (a : A) : preserves R (ret a).
Proof. intros w. apply R_refl. Qed.

Lemma preserves_raise {A : Type} (e : Exn) : preserves R (@raise A e).
Proof. intros w. apply R_refl. Qed.

Lemma preserves_lift {A : Type} (r : Result A) : preserves R (lift r).
Proof. intros w. apply R_refl. Qed.

Lemma preserves_bind {A B : Type} (m : M A) (k : A -> M B) :
  preserves R m -> (forall a, preserves R (k a)) -> preserves R (bind m k).
Proof.
  intros Hm Hk w. unfold bind. specialize (Hm w).
  destruct (m w) as [[a|e] w1]; cbn [snd] in *; [|exact Hm].
  eapply R_trans; [exact Hm|apply Hk].
Qed.

Lemma preserves_effect (f : World -> World) :
  (forall w, R w (f w)) -> preserves R (effect f).
Proof. intros Hf w. apply Hf. Qed.

Lemma preserves_with_control {A : Type} (attr : string) (self : loc)
    (k : ProSAILControl -> M A) :
  (forall c, preserves R (k c)) -> preserves R (with_control attr self k).
Proof.
  intros Hk w. unfold with_control.
  destruct (w_controls w !! self) as [c|]; [apply Hk|apply R_refl].
Qed.

Lemma preserves_with_widget {A : Type} (meth : string) (r : loc)
    (k : FloatSpin -> M A) :
  (forall w fs, w_widgets w !! r = Some fs -> R w (snd (k fs w))) ->
  preserves R (with_widget meth r k).
Proof.
  intros Hk w. unfold with_widget.
  destruct (w_widgets w !! r) as [fs|] eqn:Hr; [by apply Hk|apply R_refl].
Qed.

Lemma preserves_with_series {A : Type} (meth : string) (s : loc)
    (k : ProSAILSeries -> M A) :
  (forall ser, preserves R (k ser)) -> preserves R (with_series meth s k).
Proof.
  intros Hk w. unfold with_series.
  destruct (w_series w !! s) as [ser|]; [apply Hk|apply R_refl].
Qed.

Lemma preserves_getitem (d : gmap string loc) (key : string) :
  preserves R (getitem d key).
Proof. unfold getitem. destruct (d !! key); [apply preserves_ret|apply preserves_raise]. Qed.

Lemma preserves_get_sliders (self : loc) : preserves R (get_sliders self).
Proof.
  apply preserves_with_control. intros c.
  destruct (pc_sliders c); [apply preserves_ret|apply preserves_raise].
Qed.

Lemma preserves_get_series (self : loc) : preserves R (get_series self).
Proof. apply preserves_with_control. intros c. apply preserves_ret. Qed.

Lemma preserves_GetId (r : loc) : preserves R (GetId r).
Proof. apply preserves_with_widget. intros w fs _. apply R_refl. Qed.

(** What is left to show for the functions of the module, given the calls
    that change the store. *)

Hypothesis R_log : forall e w, is_register e = false -> R w (log e w).
Hypothesis R_sim : forall sim w, R w (set_sim sim w).
Hypothesis R_series : forall m w, R w (set_series m w).
Hypothesis R_bindings : forall b w, R w (set_bindings b w).

Lemma preserves_run (args : list PyVal) : preserves R (run args).
Proof.
  intros w. unfold run. destruct (pyprosail_run args (w_sim w)) as [r sim'].
  cbn [snd]. eapply R_trans; [|apply R_sim]. by apply R_log.
Qed.

Lemma preserves_set_xy_data (s : loc) (xdata ydata : list Q) :
  preserves R (set_xy_data s xdata ydata).
Proof.
  apply preserves_with_series. intros ser. apply preserves_effect. intros w.
  eapply R_trans; [apply R_series|]. by apply R_log.
Qed.

Lemma preserves_update (s : loc) : preserves R (update s).
Proof.
  apply preserves_with_series. intros ser. apply preserves_effect. intros w.
  by apply R_log.
Qed.

Lemma preserves_add_control_panel (s panel : loc) :
  preserves R (add_control_panel s panel).
Proof.
  apply preserves_with_series. intros ser. apply preserves_effect. intros w.
  eapply R_trans; [apply R_series|]. by apply R_log.
Qed.

Lemma preserves_XYDataSeries_init (name : string) (xdata ydata : list Q) :
  preserves R (XYDataSeries_init name xdata ydata).
Proof.
  intros w. unfold XYDataSeries_init. cbn [snd].
  eapply R_trans; [apply R_series|]. by apply R_log.
Qed.

Lemma preserves_GetValue (r : loc) : preserves R (GetValue r).
Proof.
  apply preserves_with_widget. intros w fs _. unfold bind, effect, ret. cbn [snd].
  by apply R_log.
Qed.

Lemma preserves_slider_value (self : loc) (name : string) :
  preserves R (slider_value self name).
Proof.
  unfold slider_value.
  apply preserves_bind; [apply preserves_get_sliders|intros d].
  apply preserves_bind; [apply preserves_getitem|intros r].
  apply preserves_GetValue.
Qed.

Lemma preserves_update_plot (self : loc) (evnt : FloatSpinEvent) :
  preserves R (update_plot self evnt).
Proof.
  unfold update_plot.
  repeat (apply preserves_bind; [apply preserves_slider_value|intros ?]).
  apply preserves_bind; [apply preserves_run|intros res].
  apply preserves_bind; [apply preserves_get_series|intros s].
  apply preserves_bind; [apply preserves_lift|intros xdata].
  apply preserves_bind; [apply preserves_lift|intros ydata].
  apply preserves_bind; [apply preserves_set_xy_data|intros _].
  apply preserves_bind; [apply preserves_get_series|intros s'].
  apply preserves_update.
Qed.

Lemma preserves_fire (id : nat) : preserves R (fire_EVT_FLOATSPIN id).
Proof.
  intros w. unfold fire_EVT_FLOATSPIN.
  destruct (find _ (w_bindings w)) as [[[panel i] [self]]|]; [|apply R_refl].
  apply preserves_update_plot.
Qed.

(** The part of [add_slider] that does not depend on the panel's
    dictionary: labels, sizer, binding. *)
Lemma preserves_Add (panel : loc) (child : SizerChild) (proportion : nat)
    (flags : list WxFlag) (border : nat) :
  preserves R (Add panel child proportion flags border).
Proof. apply preserves_effect. intros w. by apply R_log. Qed.

Lemma preserves_StaticText (parent : loc) (caption : string) :
  preserves R (StaticText parent caption).
Proof.
  apply preserves_bind; [|intros _; apply preserves_ret].
  apply preserves_effect. intros w. by apply R_log.
Qed.

Lemma preserves_EVT_FLOATSPIN (panel : loc) (id : nat) (handler : Handler) :
  preserves R (EVT_FLOATSPIN panel id handler).
Proof.
  apply preserves_effect. intros w.
  eapply R_trans; [apply R_bindings|]. by apply R_log.
Qed.

(** Calls that give a widget or a panel a new state.  [touchable] tells
    which panels may change. *)

Variable touchable : loc -> Prop.
Hypothesis R_widget :
  forall r fs w, R w (set_widgets (<[r := fs]> (w_widgets w)) w).
Hypothesis R_control :
  forall p c w, touchable p -> R w (set_controls (<[p := c]> (w_controls w)) w).
Hypothesis R_control_new :
  forall c w,
    R w (set_controls (<[fresh (dom (w_controls w)) := c]> (w_controls w)) w).

Lemma preserves_FloatSpin_new (parent : loc) (min_val max_val increment value : Q) :
  preserves R (FloatSpin_new parent min_val max_val increment value).
Proof.
  intros w. unfold FloatSpin_new. cbn [snd].
  eapply R_trans; [apply R_widget|]. by apply R_log.
Qed.

Lemma preserves_SetFormat (r : loc) (fmt : string) : preserves R (SetFormat r fmt).
Proof. apply preserves_with_widget. intros w fs _. apply R_widget. Qed.

Lemma preserves_SetDigits (r : loc) (digits : nat) : preserves R (SetDigits r digits).
Proof. apply preserves_with_widget. intros w fs _. apply R_widget. Qed.

Lemma preserves_user_edit (r : loc) (value : Q) : preserves R (user_edit r value).
Proof. apply preserves_with_widget. intros w fs _. apply R_widget. Qed.

Lemma preserves_set_sliders (self : loc) (d : gmap string loc) :
  touchable self -> preserves R (set_sliders self d).
Proof.
  intros Ht. apply preserves_with_control. intros c.
  apply preserves_effect. intros w. by apply R_control.
Qed.

Lemma preserves_add_slider (self : loc) (name caption : string)
    (defaultval minval maxval inc : Q) (handler : Handler) :
  touchable self ->
  preserves R (add_slider self name caption defaultval minval maxval inc handler).
Proof.
  intros Ht. unfold add_slider.
  apply preserves_bind; [apply preserves_StaticText|intros label].
  apply preserves_bind; [apply preserves_Add|intros _].
  apply preserves_bind; [apply preserves_FloatSpin_new|intros r].
  apply preserves_bind; [apply preserves_SetFormat|intros _].
  apply preserves_bind; [apply preserves_SetDigits|intros _].
  apply preserves_bind; [apply preserves_get_sliders|intros d].
  apply preserves_bind; [by apply preserves_set_sliders|intros _].
  apply preserves_bind; [apply preserves_get_sliders|intros d1].
  apply preserves_bind; [apply preserves_getitem|intros r1].
  apply preserves_bind; [apply preserves_Add|intros _].
  apply preserves_bind; [apply preserves_get_sliders|intros d2].
  apply preserves_bind; [apply preserves_getitem|intros r2].
  apply preserves_bind; [apply preserves_GetId|intros id].
  apply preserves_EVT_FLOATSPIN.
Qed.

Lemma preserves_setup (self parent : loc) :
  touchable self -> preserves R (setup self parent).
Proof.
  intros Ht. unfold setup.
  apply preserves_bind; [|intros _].
  { apply preserves_effect. intros w. by apply R_log. }
  apply preserves_bind; [by apply preserves_set_sliders|intros _].
  repeat (apply preserves_bind; [by apply preserves_add_slider|intros _]).
  by apply preserves_add_slider.
Qed.

Lemma preserves_ProSAILControl_init (series : loc) :
  preserves R (ProSAILControl_init series).
Proof.
  intros w. unfold ProSAILControl_init. cbn [snd].
  eapply R_trans; [apply R_control_new|]. by apply R_log.
Qed.

Lemma preserves_ProSAILSeries_init (name : string) (xdata ydata : list Q) :
  preserves R (ProSAILSeries_init name xdata ydata).
Proof.
  unfold ProSAILSeries_init.
  apply preserves_bind; [apply preserves_XYDataSeries_init|intros self].
  apply preserves_bind; [apply preserves_ProSAILControl_init|intros panel].
  apply preserves_bind; [apply preserves_add_control_panel|intros _].
  apply preserves_ret.
Qed.

Lemma preserves_plot_into_subplot (self subplot : loc) :
  preserves R (plot_into_subplot self subplot).
Proof.
  unfold plot_into_subplot.
  apply preserves_bind; [apply preserves_run|intros res].
  apply preserves_bind; [apply preserves_lift|intros xdata].
  apply preserves_bind; [apply preserves_lift|intros ydata].
  apply preserves_bind; [apply preserves_ProSAILSeries_init|intros s].
  apply preserves_bind; [|intros _; apply preserves_ret].
  apply preserves_effect. intros w. by apply R_log.
Qed.

End Frame.

(** * The plugin registry *)

Lemma module_body_eq (w : World) : module_body w = (Ok tt, module_loaded w).
Proof.
  unfold module_body, ProsailPlugin_init, plugins_register, module_loaded,
    bind, effect.
  expose.
Qed.

Lemma import_prosail_eq (w : World) :
  import_prosail w =
  (Ok tt, if w_imported w then w else set_imported true (module_loaded w)).
Proof.
  unfold import_prosail. rewrite module_body_eq.
  by destruct (w_imported w).
Qed.

Lemma same_registry_refl (w : World) : same_registry w w.
Proof. by split. Qed.

Lemma same_registry_trans (w1 w2 w3 : World) :
  same_registry w1 w2 -> same_registry w2 w3 -> same_registry w1 w3.
Proof. intros [H1 H2] [H3 H4]. split; congruence. Qed.

Lemma same_registry_log (e : Event) (w : World) :
  is_register e = false -> same_registry w (log e w).
Proof.
  intros He. split; [|reflexivity]. unfold registrations. proj.
  rewrite List.filter_app. cbn [List.filter]. rewrite He. apply app_nil_r.
Qed.

(** The functions of the module other than its body leave the registry
    alone. *)
Lemma frame_same_registry {A : Type} (m : M A) :
  (forall R : World -> World -> Prop,
     (forall w, R w w) ->
     (forall w1 w2 w3, R w1 w2 -> R w2 w3 -> R w1 w3) ->
     (forall e w, is_register e = false -> R w (log e w)) ->
     (forall sim w, R w (set_sim sim w)) ->
     (forall m w, R w (set_series m w)) ->
     (forall b w, R w (set_bindings b w)) ->
     (forall r fs w, R w (set_widgets (<[r := fs]> (w_widgets w)) w)) ->
     (forall p c w, True -> R w (set_controls (<[p := c]> (w_controls w)) w)) ->
     (forall c w,
        R w (set_controls (<[fresh (dom (w_controls w)) := c]> (w_controls w)) w)) ->
     preserves R m) ->
  preserves same_registry m.
Proof.
  intros H. apply H; try (intros; by split).
  - apply same_registry_trans.
  - apply same_registry_log.
Qed.

Lemma step_registrations (a : Action) (w : World) :
  registrations (step a w) =
    (if is_import a && negb (w_imported w)
     then registrations w ++ [EvRegister (fresh (dom (w_plugins w)))]
     else registrations w) /\
  w_imported (step a w) = is_import a || w_imported w.
Proof.
  destruct a as [|plugin subplot|panel parent|panel name caption d lo hi inc h
                 |r v|id|panel evnt]; cbn [step is_import andb orb].
  - rewrite import_prosail_eq. cbn [snd].
    destruct (w_imported w) eqn:Hi; cbn [negb]; [done|].
    split; [|reflexivity]. unfold registrations, module_loaded. proj.
    rewrite List.filter_app. reflexivity.
  - apply (frame_same_registry (plot_into_subplot plugin subplot)).
    intros R ?????????. by eapply preserves_plot_into_subplot.
  - apply (frame_same_registry (setup panel parent)).
    intros R ?????????. by eapply (preserves_setup R) with (touchable := fun _ => True).
  - apply (frame_same_registry (add_slider panel name caption d lo hi inc h)).
    intros R ?????????.
    by eapply (preserves_add_slider R) with (touchable := fun _ => True).
  - apply (frame_same_registry (user_edit r v)).
    intros R ?????????. by eapply preserves_user_edit.
  - apply (frame_same_registry (fire_EVT_FLOATSPIN id)).
    intros R ?????????. by eapply preserves_fire.
  - apply (frame_same_registry (update_plot panel evnt)).
    intros R ?????????. by eapply preserves_update_plot.
Qed.

Lemma exec_registrations (actions : list Action) (w : World) :
  length (registrations w) = (if w_imported w then 1 else 0) ->
  length (registrations (exec actions w)) =
    (if existsb is_import actions || w_imported w then 1 else 0).
Proof.
  revert w. induction actions as [|a actions IH]; intros w Hw; [done|].
  cbn [exec fold_left existsb]. fold (exec actions (step a w)).
  destruct (step_registrations a w) as [Hr Hi].
  rewrite IH.
  - rewrite Hi. by destruct (is_import a), (existsb is_import actions), (w_imported w).
  - rewrite Hr, Hi.
    destruct (is_import a), (w_imported w); cbn [andb orb negb]; try done.
    rewrite length_app, Hw. reflexivity.
Qed.

(** C8. The module body returns normally and calls [plugins.register]
    exactly once, as its last call, with the [ProsailPlugin] object it has
    just constructed, which was not in the store before.  No other function
    of the module adds a registration.  Hence over the lifetime of a
    process, whatever the host and the user do and however often the module
    is imported, the number of registrations is one from the first import
    on and zero before. *)
Theorem registration_happens_once :
  (forall w : World,
     let p := fresh (dom (w_plugins w)) in
     let path := ["Optical RS"; "PyProSAIL"] in
     let descr := "Plot outputs from the PyProSAIL vegetation reflectance model" in
     fst (module_body w) = Ok tt /\
     events_of module_body w =
       [EvPluginInit p "PyProSAIL"; EvSetMenuEntry p path descr; EvRegister p] /\
     w_plugins w !! p = None /\
     w_plugins (snd (module_body w)) !! p =
       Some (mk_plugin "PyProSAIL" ProSAILSeries_class (Some (path, descr)))) /\
  (forall (a : Action) (w : World),
     registrations (step a w) =
       if is_import a && negb (w_imported w)
       then registrations w ++ [EvRegister (fresh (dom (w_plugins w)))]
       else registrations w) /\
  (forall w : World,
     registrations (snd (import_prosail (snd (import_prosail w)))) =
     registrations (snd (import_prosail w))) /\
  (forall (sim : SimState) (actions : list Action),
     length (registrations (exec actions (initial sim))) =
       if existsb is_import actions then 1 else 0).
Proof.
  split; [|split; [|split]].
  - intros w p path descr. rewrite module_body_eq. cbn [fst snd].
    split; [done|]. split.
    { eapply events_of_eq; [apply module_body_eq|reflexivity]. }
    split; [apply fresh_lookup_None|].
    unfold module_loaded. proj. apply lookup_insert_eq.
  - intros a w. apply step_registrations.
  - intros w. rewrite !import_prosail_eq. cbn [snd].
    destruct (w_imported w) eqn:Hi; [by rewrite Hi|]. proj. reflexivity.
  - intros sim actions. rewrite exec_registrations by done.
    cbn [initial w_imported]. by rewrite orb_false_r.
Qed.

(** * The dictionary [sliders] *)

Lemma readable_reading (w : World) (self : loc) (key : string) :
  readable w self key <-> exists r q, reading w self key = Ok (r, q).
Proof.
  unfold readable, reading. split.
  - intros (c & d & r & -> & -> & -> & [fs ->]). by eauto.
  - intros (r & q & H).
    destruct (w_controls w !! self) as [c|]; [|discriminate].
    destruct (pc_sliders c) as [d|] eqn:Hd; [|discriminate].
    destruct (d !! key) as [r'|] eqn:Hk; [|discriminate].
    destruct (w_widgets w !! r') as [fs|] eqn:Hr; [|discriminate].
    exists c, d, r'. by rewrite Hr.
Qed.

Lemma sliders_ready_readable (w : World) (self : loc) :
  sliders_ready w self <->
  readable w self "EWT" /\ readable w self "Chloro" /\
  readable w self "Carot" /\ readable w self "N".
Proof.
  rewrite !readable_reading. unfold sliders_ready, slider_values. split.
  - intros [v Hv].
    destruct (reading w self "EWT") as [[r1 q1]|]; [|discriminate].
    destruct (reading w self "Chloro") as [[r2 q2]|]; [|discriminate].
    destruct (reading w self "Carot") as [[r3 q3]|]; [|discriminate].
    destruct (reading w self "N") as [[r4 q4]|]; [|discriminate].
    repeat split; by eexists _, _.
  - intros ((r1 & q1 & ->) & (r2 & q2 & ->) & (r3 & q3 & ->) & (r4 & q4 & ->)).
    by eexists.
Qed.

Lemma keeps_panel_refl (self : loc) (w : World) : keeps_panel self w w.
Proof. by split. Qed.

Lemma keeps_panel_trans (self : loc) (w1 w2 w3 : World) :
  keeps_panel self w1 w2 -> keeps_panel self w2 w3 -> keeps_panel self w1 w3.
Proof.
  intros [H1 H2] [H3 H4]. split.
  - intros c Hc. by apply H3, H1.
  - intros r Hr. by apply H4, H2.
Qed.

Lemma keeps_panel_readable (self : loc) (w w' : World) (key : string) :
  keeps_panel self w w' -> readable w self key -> readable w' self key.
Proof.
  intros [Hc Hw] (c & d & r & H1 & H2 & H3 & H4).
  exists c, d, r. repeat split; [by apply Hc|done|done|by apply Hw].
Qed.

Lemma keeps_panel_ready (self : loc) (w w' : World) :
  keeps_panel self w w' -> sliders_ready w self -> sliders_ready w' self.
Proof.
  intros Hk. rewrite !sliders_ready_readable.
  intros (H1 & H2 & H3 & H4).
  repeat split; by apply (keeps_panel_readable self w w').
Qed.

(** What does not touch the panel [self]: everything but [setup] and
    [add_slider] on [self] itself. *)
Lemma frame_keeps_panel {A : Type} (self : loc) (m : M A) :
  (forall R : World -> World -> Prop,
     (forall w, R w w) ->
     (forall w1 w2 w3, R w1 w2 -> R w2 w3 -> R w1 w3) ->
     (forall e w, is_register e = false -> R w (log e w)) ->
     (forall sim w, R w (set_sim sim w)) ->
     (forall m w, R w (set_series m w)) ->
     (forall b w, R w (set_bindings b w)) ->
     (forall r fs w, R w (set_widgets (<[r := fs]> (w_widgets w)) w)) ->
     (forall p c w, p <> self -> R w (set_controls (<[p := c]> (w_controls w)) w)) ->
     (forall c w,
        R w (set_controls (<[fresh (dom (w_controls w)) := c]> (w_controls w)) w)) ->
     preserves R m) ->
  preserves (keeps_panel self) m.
Proof.
  intros H. apply H; try (intros; by split).
  - apply keeps_panel_trans.
  - intros r fs w. split; [done|]. proj. intros r' Hr'.
    destruct (decide (r = r')) as [->|Hne].
    + by rewrite lookup_insert_eq.
    + by rewrite lookup_insert_ne.
  - intros p c w Hne. split; [|done]. proj. intros c' Hc'.
    by rewrite lookup_insert_ne.
  - intros c w. split; [|done]. proj. intros c' Hc'.
    rewrite lookup_insert_ne; [done|].
    intros E. rewrite <- E, fresh_lookup_None in Hc'. discriminate.
Qed.

(** One more slider on a panel that is ready leaves it ready. *)
Lemma slider_added_readable (w : World) (self : loc) (c : ProSAILControl)
    (d : gmap string loc) (name caption : string)
    (defaultval minval maxval inc : Q) (handler : Handler) (key : string) :
  w_controls w !! self = Some c ->
  pc_sliders c = Some d ->
  readable w self key ->
  readable (slider_added w self c d name caption defaultval minval maxval inc handler)
           self key.
Proof.
  intros Hc Hd (c' & d' & r & Hc' & Hd' & Hk & Hr).
  rewrite Hc in Hc'. injection Hc' as <-. rewrite Hd in Hd'. injection Hd' as <-.
  unfold readable, slider_added. proj. rewrite lookup_insert_eq.
  destruct (decide (name = key)) as [->|Hne].
  - eexists _, _, _. split; [reflexivity|]. split; [reflexivity|].
    rewrite !lookup_insert_eq. by eauto.
  - eexists _, _, r. split; [reflexivity|]. split; [reflexivity|].
    rewrite lookup_insert_ne by done. split; [done|].
    destruct (decide (fresh (dom (w_widgets w)) = r)) as [->|Hne'].
    + by rewrite lookup_insert_eq.
    + by rewrite lookup_insert_ne.
Qed.

Lemma step_sliders_ready (a : Action) (w : World) (self : loc) :
  sliders_ready w self -> sliders_ready (step a w) self.
Proof.
  intros Hready.
  assert (exists c d, w_controls w !! self = Some c /\ pc_sliders c = Some d)
    as (c & d & Hc & Hd).
  { apply sliders_ready_readable in Hready as [(c & d & r & ? & ? & _) _]. by eauto. }
  destruct a as [|plugin subplot|panel parent|panel name caption dv lo hi inc h
                 |r v|id|panel evnt]; cbn [step].
  - rewrite import_prosail_eq. cbn [snd].
    destruct (w_imported w); [done|].
    eapply keeps_panel_ready; [|exact Hready]. by split.
  - eapply keeps_panel_ready; [|exact Hready].
    apply (frame_keeps_panel self (plot_into_subplot plugin subplot)).
    intros R ?????????. by eapply preserves_plot_into_subplot.
  - destruct (decide (panel = self)) as [->|Hne].
    + rewrite (setup_eq self parent w c Hc). cbn [snd].
      unfold sliders_ready. by rewrite setup_slider_values.
    + eapply keeps_panel_ready; [|exact Hready].
      apply (frame_keeps_panel self (setup panel parent)).
      intros R ?????????.
      by eapply (preserves_setup R) with (touchable := fun p => p <> self).
  - destruct (decide (panel = self)) as [->|Hne].
    + rewrite add_slider_eq, Hc, Hd. cbn [snd].
      apply sliders_ready_readable in Hready as (H1 & H2 & H3 & H4).
      apply sliders_ready_readable.
      repeat split; by apply slider_added_readable.
    + eapply keeps_panel_ready; [|exact Hready].
      apply (frame_keeps_panel self (add_slider panel name caption dv lo hi inc h)).
      intros R ?????????.
      by eapply (preserves_add_slider R) with (touchable := fun p => p <> self).
  - eapply keeps_panel_ready; [|exact Hready].
    apply (frame_keeps_panel self (user_edit r v)).
    intros R ?????????. by eapply preserves_user_edit.
  - eapply keeps_panel_ready; [|exact Hready].
    apply (frame_keeps_panel self (fire_EVT_FLOATSPIN id)).
    intros R ?????????. by eapply preserves_fire.
  - eapply keeps_panel_ready; [|exact Hready].
    apply (frame_keeps_panel self (update_plot panel evnt)).
    intros R ?????????. by eapply preserves_update_plot.
Qed.

Lemma exec_sliders_ready (actions : list Action) (w : World) (self : loc) :
  sliders_ready w self -> sliders_ready (exec actions w) self.
Proof.
  revert w. induction actions as [|a actions IH]; intros w Hw; [done|].
  cbn [exec fold_left]. fold (exec actions (step a w)).
  by apply IH, step_sliders_ready.
Qed.

(** C10. [ProSAILControl.__init__] leaves the new panel without an attribute
    [sliders].  On a panel without that attribute, [update_plot] raises
    [AttributeError] for [sliders] at once, and [add_slider] raises it too.
    Once [setup] has run on a panel, and whatever the host and the user do
    afterwards, the four lookups and reads of [update_plot] succeed: the
    handler gets as far as the simulator call. *)
Theorem sliders_exist_from_setup_on
    (series : loc) (w0 : World)
    (self : loc) (c : ProSAILControl) (w : World) (evnt : FloatSpinEvent)
    (name caption : string) (defaultval minval maxval inc : Q) (handler : Handler)
    (self' parent : loc) (c' : ProSAILControl) (w' : World)
    (actions : list Action) (evnt' : FloatSpinEvent) :
  w_controls w !! self = Some c ->
  pc_sliders c = None ->
  w_controls w' !! self' = Some c' ->
  (let p := fresh (dom (w_controls w0)) in
   fst (ProSAILControl_init series w0) = Ok p /\
   w_controls (snd (ProSAILControl_init series w0)) !! p =
     Some (mk_control "ProSAIL Parameters" series None)) /\
  update_plot self evnt w = (Raise (AttributeError "sliders"), w) /\
  fst (add_slider self name caption defaultval minval maxval inc handler w) =
    Raise (AttributeError "sliders") /\
  (let w2 := exec actions (snd (setup self' parent w')) in
   fst (setup self' parent w') = Ok tt /\
   sliders_ready w2 self' /\
   exists (r1 r2 r3 r4 : loc) (ewt chloro carot N : Q) (rest : list Event),
     reading w2 self' "EWT" = Ok (r1, ewt) /\
     reading w2 self' "Chloro" = Ok (r2, chloro) /\
     reading w2 self' "Carot" = Ok (r3, carot) /\
     reading w2 self' "N" = Ok (r4, N) /\
     events_of (update_plot self' evnt') w2 =
       [EvGetValue r1 ewt; EvGetValue r2 chloro; EvGetValue r3 carot;
        EvGetValue r4 N; EvRun (update_plot_args ewt chloro carot N)] ++ rest).
Proof.
  intros Hc Hd Hc'. split; [|split; [|split]].
  - cbv zeta. unfold ProSAILControl_init. proj. split; [done|].
    apply lookup_insert_eq.
  - unfold update_plot. unfold bind at 1. rewrite slider_value_eq.
    unfold reading. by rewrite Hc, Hd.
  - by rewrite add_slider_eq, Hc, Hd.
  - cbv zeta. rewrite (setup_eq self' parent w' c' Hc'). cbn [fst snd].
    split; [done|].
    assert (Hready : sliders_ready (exec actions (setup_finished w' self' parent c')) self').
    { apply exec_sliders_ready. unfold sliders_ready.
      by rewrite setup_slider_values. }
    split; [exact Hready|].
    destruct Hready as [[[[ewt chloro] carot] N] Hv].
    destruct (slider_values_Some _ _ _ _ _ _ Hv)
      as (r1 & r2 & r3 & r4 & H1 & H2 & H3 & H4).
    destruct (update_plot_calls self' evnt' _ _ _ _ _ _ _ _ _ H1 H2 H3 H4)
      as (rest & Hev & _).
    by exists r1, r2, r3, r4, ewt, chloro, carot, N, rest.
Qed.

(** * Further properties of [plot_into_subplot] *)

Lemma column_Ok (res : ndarray) (j : nat) :
  (j < ncols res)%nat ->
  column res j = Ok (map (fun r => nth j r 0%Q) (rows res)).
Proof.
  intros Hj. unfold column.
  destruct (j <? ncols res)%nat eqn:E; [done|].
  apply Nat.ltb_ge in E. lia.
Qed.

Lemma column_IndexError (res : ndarray) (j : nat) :
  (ncols res <= j)%nat -> column res j = Raise IndexError.
Proof.
  intros Hj. unfold column.
  destruct (j <? ncols res)%nat eqn:E; [|done].
  apply Nat.ltb_lt in E. lia.
Qed.

Lemma column_length (res : ndarray) (j : nat) (l : list Q) :
  column res j = Ok l -> length l = length (rows res).
Proof.
  unfold column. destruct (j <? ncols res)%nat; [|discriminate].
  intros [= <-]. apply length_map.
Qed.

(** X1. An activation whose simulator call returns a table with at least
    two columns returns [True]; it creates one new series, named "ProSAIL
    Output", holding columns 0 and 1 of the table, and one new panel
    without sliders; the panel belongs to the series and the series lists
    the panel; the series is then added to the subplot that was passed.
    No widget and no binding is created. *)
Theorem plot_into_subplot_creates_pair (self subplot : loc) (w : World)
    (res : ndarray) (sim' : SimState) :
  pyprosail_run plot_into_subplot_args (w_sim w) = (Ok res, sim') ->
  (2 <= ncols res)%nat ->
  let s := fresh (dom (w_series w)) in
  let p := fresh (dom (w_controls w)) in
  let xdata := map (fun r => nth 0 r 0%Q) (rows res) in
  let ydata := map (fun r => nth 1 r 0%Q) (rows res) in
  let w' := snd (plot_into_subplot self subplot w) in
  fst (plot_into_subplot self subplot w) = Ok true /\
  w_series w !! s = None /\
  w_controls w !! p = None /\
  w_series w' = <[s := mk_series "ProSAIL Output" xdata ydata [p]]> (w_series w) /\
  w_controls w' = <[p := mk_control "ProSAIL Parameters" s None]> (w_controls w) /\
  w_widgets w' = w_widgets w /\
  w_bindings w' = w_bindings w /\
  events_of (plot_into_subplot self subplot) w =
    [EvRun plot_into_subplot_args;
     EvSeriesInit s "ProSAIL Output" xdata ydata;
     EvPanelInit p "ProSAIL Parameters";
     EvAddControlPanel s p;
     EvAddDataSeries subplot s].
Proof.
  intros Hrun Hcols s p xdata ydata w'.
  pose proof (plot_into_subplot_eq self subplot w) as Heq.
  rewrite Hrun, (column_Ok res 0), (column_Ok res 1) in Heq by lia.
  fold xdata ydata in Heq.
  assert (Hev : events_of (plot_into_subplot self subplot) w =
                [EvRun plot_into_subplot_args;
                 EvSeriesInit s "ProSAIL Output" xdata ydata;
                 EvPanelInit p "ProSAIL Parameters";
                 EvAddControlPanel s p;
                 EvAddDataSeries subplot s]).
  { eapply events_of_eq; [exact Heq|reflexivity]. }
  unfold w'. rewrite Hev, Heq. cbn [fst snd].
  repeat split; apply fresh_lookup_None.
Qed.

(** X2. An activation whose simulator call raises, or returns a table with
    fewer than two columns (then the exception is [IndexError]), ends with
    that exception after the call: no series and no panel is created and
    nothing is added to the subplot. *)
Theorem plot_into_subplot_failure_creates_nothing (self subplot : loc) (w : World)
    (e : Exn) :
  (exists sim', pyprosail_run plot_into_subplot_args (w_sim w) = (Raise e, sim')) \/
  (exists res sim', pyprosail_run plot_into_subplot_args (w_sim w) = (Ok res, sim') /\
                    (ncols res < 2)%nat /\ e = IndexError) ->
  fst (plot_into_subplot self subplot w) = Raise e /\
  w_series (snd (plot_into_subplot self subplot w)) = w_series w /\
  w_controls (snd (plot_into_subplot self subplot w)) = w_controls w /\
  events_of (plot_into_subplot self subplot) w = [EvRun plot_into_subplot_args].
Proof.
  intros H.
  pose proof (plot_into_subplot_eq self subplot w) as Heq.
  assert (exists sim', plot_into_subplot self subplot w = (Raise e, plot_called w sim'))
    as [sim' Hfail].
  { destruct H as [[sim' Hrun]|(res & sim' & Hrun & Hn & ->)];
      rewrite Hrun in Heq; exists sim'; [exact Heq|].
    destruct (decide (ncols res = 0)%nat) as [H0|H0].
    - by rewrite (column_IndexError res 0) in Heq by lia.
    - by rewrite (column_Ok res 0), (column_IndexError res 1) in Heq by lia. }
  erewrite events_of_eq; [|exact Hfail|reflexivity].
  by rewrite Hfail.
Qed.

(** * Further properties of [update_plot] *)

(** X3. If the simulator returns a table with fewer than two columns,
    [update_plot] raises [IndexError] after the call; the series are
    untouched and neither [set_xy_data] nor [update] is called. *)
Theorem update_plot_narrow_table (self : loc) (evnt : FloatSpinEvent) (w : World)
    (ewt chloro carot N : Q) (res : ndarray) (sim' : SimState) :
  slider_values w self = Some (ewt, chloro, carot, N) ->
  pyprosail_run (update_plot_args ewt chloro carot N) (w_sim w) = (Ok res, sim') ->
  (ncols res < 2)%nat ->
  fst (update_plot self evnt w) = Raise IndexError /\
  w_series (snd (update_plot self evnt w)) = w_series w /\
  exists r1 r2 r3 r4 : loc,
    events_of (update_plot self evnt) w =
      [EvGetValue r1 ewt; EvGetValue r2 chloro; EvGetValue r3 carot;
       EvGetValue r4 N; EvRun (update_plot_args ewt chloro carot N)].
Proof.
  intros Hv Hrun Hn.
  destruct (slider_values_Some _ _ _ _ _ _ Hv) as (r1 & r2 & r3 & r4 & H1 & H2 & H3 & H4).
  pose proof (update_plot_eq self evnt w _ _ _ _ _ _ _ _ H1 H2 H3 H4) as Heq.
  rewrite Hrun, write_table_eq in Heq. unfold after_call in Heq. proj.
  assert (exists c, w_controls w !! self = Some c) as [c Hc].
  { unfold reading in H1. destruct (w_controls w !! self); [by eexists|discriminate]. }
  rewrite Hc in Heq.
  assert (Hfail : update_plot self evnt w =
            (Raise IndexError,
             set_sim sim'
               (log (EvRun (update_plot_args ewt chloro carot N))
                  (log (EvGetValue r4 N)
                     (log (EvGetValue r3 carot)
                        (log (EvGetValue r2 chloro)
                           (log (EvGetValue r1 ewt) w))))))).
  { destruct (decide (ncols res = 0)%nat) as [H0|H0].
    - by rewrite (column_IndexError res 0) in Heq by lia.
    - by rewrite (column_Ok res 0), (column_IndexError res 1) in Heq by lia. }
  rewrite Hfail. cbn [fst snd]. proj. repeat split.
  exists r1, r2, r3, r4.
  eapply events_of_eq; [exact Hfail|]. proj. by rewrite <- !app_assoc.
Qed.

Lemma same_gui_trans (w1 w2 w3 : World) :
  same_gui w1 w2 -> same_gui w2 w3 -> same_gui w1 w3.
Proof.
  intros (A1 & A2 & A3 & A4 & A5) (B1 & B2 & B3 & B4 & B5).
  repeat split; congruence.
Qed.

Lemma same_gui_update_plot (self : loc) (evnt : FloatSpinEvent) :
  preserves same_gui (update_plot self evnt).
Proof.
  apply preserves_update_plot;
    first [by (intros; repeat split) | apply same_gui_trans].
Qed.

(** The store of series after [update_plot]: as before, or with the series
    of the panel rewritten in place from the two columns of one table. *)
Lemma update_plot_series (self : loc) (evnt : FloatSpinEvent) (w : World) :
  w_series (snd (update_plot self evnt w)) = w_series w \/
  exists c ser res xdata ydata,
    w_controls w !! self = Some c /\
    w_series w !! pc_series c = Some ser /\
    column res 0 = Ok xdata /\ column res 1 = Ok ydata /\
    w_series (snd (update_plot self evnt w)) =
      <[pc_series c := mk_series (s_name ser) xdata ydata (s_control_panels ser)]>
        (w_series w).
Proof.
  destruct (slider_values w self) as [[[[ewt chloro] carot] N]|] eqn:Hv.
  2:{ destruct (update_plot_unreadable self evnt w Hv) as (e & w1 & Heq & _ & Hs & _).
      left. by rewrite Heq. }
  destruct (slider_values_Some _ _ _ _ _ _ Hv) as (r1 & r2 & r3 & r4 & H1 & H2 & H3 & H4).
  pose proof (update_plot_eq self evnt w _ _ _ _ _ _ _ _ H1 H2 H3 H4) as Heq.
  destruct (pyprosail_run (update_plot_args ewt chloro carot N) (w_sim w))
    as [[res|e] sim'].
  2:{ left. by rewrite Heq. }
  rewrite write_table_eq in Heq. unfold after_call in Heq. proj.
  destruct (w_controls w !! self) as [c|] eqn:Hc; [|left; by rewrite Heq].
  destruct (column res 0) as [xdata|] eqn:Hx; [|left; by rewrite Heq].
  destruct (column res 1) as [ydata|] eqn:Hy; [|left; by rewrite Heq].
  destruct (w_series w !! pc_series c) as [ser|] eqn:Hs; [|left; by rewrite Heq].
  right. exists c, ser, res, xdata, ydata. by rewrite Heq.
Qed.

(** X4. [update_plot], however it ends, leaves the panels and their
    dictionaries, the widgets and their values, the bindings and the
    plugins as they were.  Of the series it can change only the one of its
    panel, and of that one only the x and y arrays: the name and the list
    of control panels of every series stay. *)
Theorem update_plot_touches_only_its_series (self : loc) (evnt : FloatSpinEvent)
    (w : World) :
  same_gui w (snd (update_plot self evnt w)) /\
  (forall s,
     w_series (snd (update_plot self evnt w)) !! s = w_series w !! s \/
     pc_series <$> w_controls w !! self = Some s) /\
  (forall s,
     s_name <$> w_series (snd (update_plot self evnt w)) !! s =
     s_name <$> w_series w !! s) /\
  (forall s,
     s_control_panels <$> w_series (snd (update_plot self evnt w)) !! s =
     s_control_panels <$> w_series w !! s).
Proof.
  split; [apply same_gui_update_plot|].
  destruct (update_plot_series self evnt w)
    as [->|(c & ser & res & xdata & ydata & Hc & Hs & _ & _ & ->)].
  { repeat split; intros s; by left. }
  rewrite Hc. cbn [fmap option_fmap option_map].
  repeat split; intros s; destruct (decide (pc_series c = s)) as [<-|Hne];
    rewrite ?lookup_insert_eq, ?lookup_insert_ne by done;
    rewrite ?Hs; try done; first [by left | by right].
Qed.

(** X5. A panel whose dictionary lacks one of the four keys, all entries
    being live widgets: [update_plot] raises [KeyError] for the first key,
    in the order EWT, Chloro, Carot, N, that is missing.  The simulator is
    not called and the series are untouched. *)
Theorem update_plot_missing_key (self : loc) (evnt : FloatSpinEvent) (w : World)
    (c : ProSAILControl) (d : gmap string loc) (key : string) :
  w_controls w !! self = Some c ->
  pc_sliders c = Some d ->
  (forall k r, d !! k = Some r -> is_Some (w_widgets w !! r)) ->
  first_missing d = Some key ->
  fst (update_plot self evnt w) = Raise (KeyError key) /\
  w_sim (snd (update_plot self evnt w)) = w_sim w /\
  w_series (snd (update_plot self evnt w)) = w_series w /\
  run_calls (events_of (update_plot self evnt) w) = [].
Proof.
  intros Hc Hd Hlive Hmiss.
  assert (Hread : forall k,
            reading w self k =
            match d !! k with
            | Some r => match w_widgets w !! r with
                        | Some fs => Ok (r, fs_value fs)
                        | None => Raise (AttributeError "GetValue")
                        end
            | None => Raise (KeyError k)
            end).
  { intros k. unfold reading. by rewrite Hc, Hd. }
  assert (Hok : forall k r, d !! k = Some r -> exists q, reading w self k = Ok (r, q)).
  { intros k r Hk. rewrite Hread, Hk. destruct (Hlive k r Hk) as [fs ->]. by eexists. }
  assert (Hnone : forall k, d !! k = None -> reading w self k = Raise (KeyError k)).
  { intros k Hk. by rewrite Hread, Hk. }
  unfold first_missing, slider_keys in Hmiss. cbn [List.find] in Hmiss.
  assert (exists w1 evs,
            update_plot self evnt w = (Raise (KeyError key), w1) /\
            w_sim w1 = w_sim w /\ w_series w1 = w_series w /\
            w_trace w1 = w_trace w ++ evs /\ run_calls evs = [])
    as (w1 & evs & Heq & Hsim & Hser & Htr & Hcalls).
  { unfold update_plot.
    unfold bind at 1. rewrite slider_value_eq.
    destruct (d !! "EWT") as [r1|] eqn:E1.
    2:{ rewrite bool_decide_eq_true_2 in Hmiss by done. injection Hmiss as <-.
        rewrite (Hnone _ E1). exists w, []. by rewrite app_nil_r. }
    rewrite bool_decide_eq_false_2 in Hmiss by done.
    destruct (Hok _ _ E1) as [q1 ->].
    unfold bind at 1. rewrite slider_value_eq, reading_log.
    destruct (d !! "Chloro") as [r2|] eqn:E2.
    2:{ rewrite bool_decide_eq_true_2 in Hmiss by done. injection Hmiss as <-.
        rewrite (Hnone _ E2). by eexists _, [_]. }
    rewrite bool_decide_eq_false_2 in Hmiss by done.
    destruct (Hok _ _ E2) as [q2 ->].
    unfold bind at 1. rewrite slider_value_eq, !reading_log.
    destruct (d !! "Carot") as [r3|] eqn:E3.
    2:{ rewrite bool_decide_eq_true_2 in Hmiss by done. injection Hmiss as <-.
        rewrite (Hnone _ E3). eexists _, [_; _].
        split; [reflexivity|]. proj. by rewrite <- !app_assoc. }
    rewrite bool_decide_eq_false_2 in Hmiss by done.
    destruct (Hok _ _ E3) as [q3 ->].
    unfold bind at 1. rewrite slider_value_eq, !reading_log.
    destruct (d !! "N") as [r4|] eqn:E4.
    2:{ rewrite bool_decide_eq_true_2 in Hmiss by done. injection Hmiss as <-.
        rewrite (Hnone _ E4). eexists _, [_; _; _].
        split; [reflexivity|]. proj. by rewrite <- !app_assoc. }
    rewrite bool_decide_eq_false_2 in Hmiss by done. discriminate. }
  erewrite events_of_eq; [|exact Heq|exact Htr].
  by rewrite Heq.
Qed.

(** * Further properties of [add_slider] and [setup] *)

(** X6. [add_slider] on a panel that has a dictionary returns normally.
    It creates one new widget with the given bounds, increment and value,
    format "%f" and two digits, enters it in the dictionary under [name]
    (replacing an entry of that name), and binds its id to the handler.
    The other keys read as before.  The label goes into the sizer before
    the widget, and the binding is made last. *)
Theorem add_slider_extends_dictionary (self : loc) (name caption : string)
    (defaultval minval maxval inc : Q) (handler : Handler) (w : World)
    (c : ProSAILControl) (d : gmap string loc) :
  w_controls w !! self = Some c ->
  pc_sliders c = Some d ->
  let r := fresh (dom (w_widgets w)) in
  let m := add_slider self name caption defaultval minval maxval inc handler in
  fst (m w) = Ok tt /\
  w_widgets w !! r = None /\
  w_widgets (snd (m w)) =
    <[r := mk_FloatSpin self minval maxval inc defaultval (Some "%f") (Some 2)]>
      (w_widgets w) /\
  pc_sliders <$> w_controls (snd (m w)) !! self = Some (Some (<[name := r]> d)) /\
  reading (snd (m w)) self name = Ok (r, defaultval) /\
  (forall key r' q, key <> name -> reading w self key = Ok (r', q) ->
                    reading (snd (m w)) self key = Ok (r', q)) /\
  w_bindings (snd (m w)) = (self, r, handler) :: w_bindings w /\
  events_of m w =
    [EvStaticText self caption;
     EvSizerAdd self (LabelChild caption) 0
       [wxLEFT; wxRIGHT; wxTOP; wxALIGN_CENTER_HORIZONTAL] 10;
     EvFloatSpin r;
     EvSizerAdd self (SpinChild r) 0 [wxALL; wxEXPAND; wxALIGN_CENTER_HORIZONTAL] 0;
     EvBind self r handler].
Proof.
  intros Hc Hd r m.
  assert (Heq : m w = (Ok tt, slider_added w self c d name caption defaultval
                                           minval maxval inc handler)).
  { unfold m. by rewrite add_slider_eq, Hc, Hd. }
  pose proof (fresh_lookup_None (w_widgets w)) as Hr. fold r in Hr.
  erewrite events_of_eq; [|exact Heq|reflexivity].
  rewrite Heq. cbn [fst snd]. unfold slider_added, reading. fold r. proj.
  rewrite !lookup_insert_eq. proj. rewrite !lookup_insert_eq.
  repeat split; try done.
  intros key r' q Hne. rewrite Hc, Hd.
  rewrite lookup_insert_ne by done.
  destruct (d !! key) as [r''|]; [|done].
  destruct (w_widgets w !! r'') as [fs|] eqn:Hr''; [|done].
  intros [= <- <-].
  rewrite lookup_insert_ne; [by rewrite Hr''|].
  intros E. rewrite E in Hr. congruence.
Qed.

(** X7. [add_slider] on a panel without the attribute [sliders] raises
    [AttributeError], but only after the label has been created and put in
    the sizer and the widget has been created and configured: the widget
    stays in the store, outside the sizer and without a binding. *)
Theorem add_slider_failure_leaves_widget (self : loc) (name caption : string)
    (defaultval minval maxval inc : Q) (handler : Handler) (w : World)
    (c : ProSAILControl) :
  w_controls w !! self = Some c ->
  pc_sliders c = None ->
  let r := fresh (dom (w_widgets w)) in
  let m := add_slider self name caption defaultval minval maxval inc handler in
  fst (m w) = Raise (AttributeError "sliders") /\
  w_widgets w !! r = None /\
  w_widgets (snd (m w)) =
    <[r := mk_FloatSpin self minval maxval inc defaultval (Some "%f") (Some 2)]>
      (w_widgets w) /\
  w_controls (snd (m w)) = w_controls w /\
  w_bindings (snd (m w)) = w_bindings w /\
  events_of m w =
    [EvStaticText self caption;
     EvSizerAdd self (LabelChild caption) 0
       [wxLEFT; wxRIGHT; wxTOP; wxALIGN_CENTER_HORIZONTAL] 10;
     EvFloatSpin r].
Proof.
  intros Hc Hd r m.
  assert (Heq : m w = (Raise (AttributeError "sliders"),
                       slider_created w self caption defaultval minval maxval inc)).
  { unfold m. by rewrite add_slider_eq, Hc, Hd. }
  erewrite events_of_eq; [|exact Heq|reflexivity].
  rewrite Heq. cbn [fst snd]. repeat split. apply fresh_lookup_None.
Qed.

(** X8. [setup] on an existing panel calls the host in this order: the
    parent's [setup]; then for EWT, Chloro, Carot and N in turn the label,
    the label into the sizer, the widget, the widget into the sizer, the
    binding.  It does not call the simulator and leaves its state and the
    series untouched. *)
Theorem setup_layout (self parent : loc) (w : World) (c : ProSAILControl) :
  w_controls w !! self = Some c ->
  let label_flags := [wxLEFT; wxRIGHT; wxTOP; wxALIGN_CENTER_HORIZONTAL] in
  let spin_flags := [wxALL; wxEXPAND; wxALIGN_CENTER_HORIZONTAL] in
  let h := update_plot_of self in
  w_sim (snd (setup self parent w)) = w_sim w /\
  w_series (snd (setup self parent w)) = w_series w /\
  run_calls (events_of (setup self parent) w) = [] /\
  exists r1 r2 r3 r4 : loc,
    events_of (setup self parent) w =
      [EvPanelSetup self parent;
       EvStaticText self "Equivalent Water Thickness (cm)";
       EvSizerAdd self (LabelChild "Equivalent Water Thickness (cm)") 0 label_flags 10;
       EvFloatSpin r1; EvSizerAdd self (SpinChild r1) 0 spin_flags 0; EvBind self r1 h;
       EvStaticText self "Chlorophyll content (ug per cm^2)";
       EvSizerAdd self (LabelChild "Chlorophyll content (ug per cm^2)") 0 label_flags 10;
       EvFloatSpin r2; EvSizerAdd self (SpinChild r2) 0 spin_flags 0; EvBind self r2 h;
       EvStaticText self "Carotenoid content (ug per cm^2)";
       EvSizerAdd self (LabelChild "Carotenoid content (ug per cm^2)") 0 label_flags 10;
       EvFloatSpin r3; EvSizerAdd self (SpinChild r3) 0 spin_flags 0; EvBind self r3 h;
       EvStaticText self "Structure Coefficient";
       EvSizerAdd self (LabelChild "Structure Coefficient") 0 label_flags 10;
       EvFloatSpin r4; EvSizerAdd self (SpinChild r4) 0 spin_flags 0; EvBind self r4 h].
Proof.
  intros Hc label_flags spin_flags h.
  pose proof (setup_eq self parent w c Hc) as Heq.
  assert (exists r1 r2 r3 r4 : loc,
    events_of (setup self parent) w =
      [EvPanelSetup self parent;
       EvStaticText self "Equivalent Water Thickness (cm)";
       EvSizerAdd self (LabelChild "Equivalent Water Thickness (cm)") 0 label_flags 10;
       EvFloatSpin r1; EvSizerAdd self (SpinChild r1) 0 spin_flags 0; EvBind self r1 h;
       EvStaticText self "Chlorophyll content (ug per cm^2)";
       EvSizerAdd self (LabelChild "Chlorophyll content (ug per cm^2)") 0 label_flags 10;
       EvFloatSpin r2; EvSizerAdd self (SpinChild r2) 0 spin_flags 0; EvBind self r2 h;
       EvStaticText self "Carotenoid content (ug per cm^2)";
       EvSizerAdd self (LabelChild "Carotenoid content (ug per cm^2)") 0 label_flags 10;
       EvFloatSpin r3; EvSizerAdd self (SpinChild r3) 0 spin_flags 0; EvBind self r3 h;
       EvStaticText self "Structure Coefficient";
       EvSizerAdd self (LabelChild "Structure Coefficient") 0 label_flags 10;
       EvFloatSpin r4; EvSizerAdd self (SpinChild r4) 0 spin_flags 0; EvBind self r4 h])
    as (r1 & r2 & r3 & r4 & Hev).
  { eexists _, _, _, _. eapply events_of_eq; [exact Heq|].
    unfold setup_finished, slider_added, setup_started. proj.
    rewrite <- !app_assoc. reflexivity. }
  rewrite Hev, Heq. cbn [snd].
  repeat split. by exists r1, r2, r3, r4.
Qed.

(** The widgets of a panel fresh from [setup]. *)
Lemma setup_readings (self parent : loc) (w : World) (c : ProSAILControl) :
  exists r1 r2 r3 r4 : loc,
    NoDup [r1; r2; r3; r4] /\
    Forall (fun r => w_widgets w !! r = None) [r1; r2; r3; r4] /\
    reading (setup_finished w self parent c) self "EWT" = Ok (r1, 0.1%Q) /\
    reading (setup_finished w self parent c) self "Chloro" = Ok (r2, 40%Q) /\
    reading (setup_finished w self parent c) self "Carot" = Ok (r3, 8%Q) /\
    reading (setup_finished w self parent c) self "N" = Ok (r4, 1.5%Q) /\
    w_bindings (setup_finished w self parent c) =
      [(self, r4, update_plot_of self); (self, r3, update_plot_of self);
       (self, r2, update_plot_of self); (self, r1, update_plot_of self)]
      ++ w_bindings w /\
    (forall r fs, w_widgets w !! r = Some fs ->
                  w_widgets (setup_finished w self parent c) !! r = Some fs) /\
    (forall key r q, reading (setup_finished w self parent c) self key = Ok (r, q) ->
                     r ∈ [r1; r2; r3; r4]).
Proof.
  destruct (four_fresh (w_widgets w)
              (mk_FloatSpin self 0 1 0.01 0.1 (Some "%f") (Some 2))
              (mk_FloatSpin self 0 100 1 40 (Some "%f") (Some 2))
              (mk_FloatSpin self 0 100 1 8 (Some "%f") (Some 2))) as [Hnd Hnew].
  cbv zeta in Hnd, Hnew.
  pose proof (setup_sliders self parent w c) as Hd.
  pose proof (setup_widgets self parent w c) as HW.
  assert (Hb : w_bindings (setup_finished w self parent c) =
               let f1 := mk_FloatSpin self 0 1 0.01 0.1 (Some "%f") (Some 2) in
               let f2 := mk_FloatSpin self 0 100 1 40 (Some "%f") (Some 2) in
               let f3 := mk_FloatSpin self 0 100 1 8 (Some "%f") (Some 2) in
               let r1 := fresh (dom (w_widgets w)) in
               let r2 := fresh (dom (<[r1 := f1]> (w_widgets w))) in
               let r3 := fresh (dom (<[r2 := f2]> (<[r1 := f1]> (w_widgets w)))) in
               let r4 := fresh (dom (<[r3 := f3]> (<[r2 := f2]>
                                      (<[r1 := f1]> (w_widgets w))))) in
               [(self, r4, update_plot_of self); (self, r3, update_plot_of self);
                (self, r2, update_plot_of self); (self, r1, update_plot_of self)]
               ++ w_bindings w) by reflexivity.
  cbv zeta in Hd, HW, Hb.
  set (r1 := fresh (dom (w_widgets w))) in *.
  set (r2 := fresh (dom (<[r1 := _]> (w_widgets w)))) in *.
  set (r3 := fresh (dom (<[r2 := _]> _))) in *.
  set (r4 := fresh (dom (<[r3 := _]> _))) in *.
  clearbody r1 r2 r3 r4.
  assert (r1 <> r2 /\ r1 <> r3 /\ r1 <> r4 /\ r2 <> r3 /\ r2 <> r4 /\ r3 <> r4)
    as (N12 & N13 & N14 & N23 & N24 & N34).
  { pose proof Hnd as X. rewrite !NoDup_cons, !not_elem_of_cons in X.
    intuition congruence. }
  assert (w_widgets w !! r1 = None /\ w_widgets w !! r2 = None /\
          w_widgets w !! r3 = None /\ w_widgets w !! r4 = None)
    as (F1 & F2 & F3 & F4).
  { rewrite !Forall_cons in Hnew. tauto. }
  exists r1, r2, r3, r4.
  split; [exact Hnd|]. split; [exact Hnew|].
  unfold reading. rewrite Hd, HW. proj.
  split; [by simplify_map_eq|]. split; [by simplify_map_eq|].
  split; [by simplify_map_eq|]. split; [by simplify_map_eq|].
  split; [exact Hb|]. split.
  - intros r fs Hr.
    rewrite !lookup_insert_ne; [done|congruence..].
  - intros key r q H.
    rewrite !lookup_insert, lookup_empty in H.
    repeat case_decide; simplify_map_eq; rewrite !elem_of_cons; intuition.
Qed.

Lemma user_edit_eq (r : loc) (value : Q) (w : World) (fs : FloatSpin) :
  w_widgets w !! r = Some fs ->
  user_edit r value w =
  (Ok tt,
   set_widgets
     (<[r := mk_FloatSpin (fs_parent fs) (fs_min_val fs) (fs_max_val fs)
                          (fs_increment fs) value (fs_format fs) (fs_digits fs)]>
        (w_widgets w)) w).
Proof. intros Hr. unfold user_edit, with_widget, effect. by rewrite Hr. Qed.

(** An edit of a live widget shows in the reads that go through it and in
    no other. *)
Lemma user_edit_reading (r : loc) (value : Q) (w : World) (self : loc)
    (key : string) (r' : loc) (q : Q) :
  is_Some (w_widgets w !! r) ->
  reading w self key = Ok (r', q) ->
  reading (snd (user_edit r value w)) self key =
    Ok (r', if decide (r' = r) then value else q).
Proof.
  intros [fs Hr]. rewrite (user_edit_eq r value w fs Hr). cbn [snd].
  unfold reading. proj.
  destruct (w_controls w !! self) as [c|]; [|discriminate].
  destruct (pc_sliders c) as [d|]; [|discriminate].
  destruct (d !! key) as [r''|]; [|discriminate].
  destruct (w_widgets w !! r'') as [fs''|] eqn:Hr''; [|discriminate].
  intros [= <- <-].
  destruct (decide (r'' = r)) as [->|Hne].
  - by rewrite lookup_insert_eq.
  - rewrite lookup_insert_ne by done. by rewrite Hr''.
Qed.



Lemma slider_values_readings (w : World) (self : loc)
    (r1 r2 r3 r4 : loc) (ewt chloro carot N : Q) :
  reading w self "EWT" = Ok (r1, ewt) ->
  reading w self "Chloro" = Ok (r2, chloro) ->
  reading w self "Carot" = Ok (r3, carot) ->
  reading w self "N" = Ok (r4, N) ->
  slider_values w self = Some (ewt, chloro, carot, N).
Proof. intros H1 H2 H3 H4. unfold slider_values. by rewrite H1, H2, H3, H4. Qed.

Lemma user_edit_slider_values (r : loc) (value : Q) (w : World) (self : loc)
    (r1 r2 r3 r4 : loc) (ewt chloro carot N : Q) :
  is_Some (w_widgets w !! r) ->
  reading w self "EWT" = Ok (r1, ewt) ->
  reading w self "Chloro" = Ok (r2, chloro) ->
  reading w self "Carot" = Ok (r3, carot) ->
  reading w self "N" = Ok (r4, N) ->
  slider_values (snd (user_edit r value w)) self =
    Some (if decide (r1 = r) then value else ewt,
          if decide (r2 = r) then value else chloro,
          if decide (r3 = r) then value else carot,
          if decide (r4 = r) then value else N).
Proof.
  intros Hlive H1 H2 H3 H4.
  apply (slider_values_readings _ _ r1 r2 r3 r4); by apply user_edit_reading.
Qed.

(** X9. [setup] starts the dictionary afresh.  The widgets that were in the
    store before stay there as they were, and a binding of such a widget
    to the panel's [update_plot] still fires it; but the dictionary refers
    to none of them, so whatever the user does to one of them, the sliders
    read by [update_plot] hold the defaults. *)
Theorem setup_again_abandons_old_widgets (self parent : loc) (w : World)
    (c : ProSAILControl) (r : loc) (fs : FloatSpin) (value : Q) :
  w_controls w !! self = Some c ->
  w_widgets w !! r = Some fs ->
  let w' := snd (setup self parent w) in
  w_widgets w' !! r = Some fs /\
  (forall key r' q, reading w' self key = Ok (r', q) -> r' <> r) /\
  slider_values (snd (user_edit r value w')) self = Some (0.1, 40, 8, 1.5)%Q /\
  (forall panel,
     find (fun b => Nat.eqb (snd (fst b)) r) (w_bindings w) =
       Some (panel, r, update_plot_of self) ->
     fire_EVT_FLOATSPIN r w' = update_plot self (mk_event r) w').
Proof.
  intros Hc Hr w'. unfold w'. rewrite (setup_eq self parent w c Hc). cbn [snd].
  destruct (setup_readings self parent w c)
    as (r1 & r2 & r3 & r4 & Hnd & Hnew & H1 & H2 & H3 & H4 & Hb & Hold & Hkeys).
  assert (r1 <> r /\ r2 <> r /\ r3 <> r /\ r4 <> r) as (X1 & X2 & X3 & X4).
  { rewrite !Forall_cons in Hnew. destruct Hnew as (F1 & F2 & F3 & F4 & _).
    repeat split; intros ->; congruence. }
  assert (Hlive : is_Some (w_widgets (setup_finished w self parent c) !! r))
    by (rewrite (Hold r fs Hr); by eexists).
  split; [by apply Hold|]. split; [|split].
  - intros key r' q Hread. specialize (Hkeys key r' q Hread).
    rewrite !elem_of_cons, elem_of_nil in Hkeys. intuition congruence.
  - rewrite (user_edit_slider_values r value _ self _ _ _ _ _ _ _ _ Hlive H1 H2 H3 H4).
    by rewrite !decide_False.
  - intros panel Hfind. unfold fire_EVT_FLOATSPIN. rewrite Hb.
    cbn [find app fst snd].
    apply Nat.eqb_neq in X1, X2, X3, X4. rewrite X1, X2, X3, X4.
    by rewrite Hfind.
Qed.


(** * What holds in every store a process can reach *)

Lemma setup_missing (self parent : loc) (w : World) :
  w_controls w !! self = None ->
  setup self parent w =
  (Raise (AttributeError "sliders"), log (EvPanelSetup self parent) w).
Proof.
  intros Hc. unfold setup.
  unfold bind at 1. unfold effect at 1.
  unfold bind at 1. unfold set_sliders at 1, with_control. proj.
  by rewrite Hc.
Qed.

Lemma update_plot_one_step (self : loc) (evnt : FloatSpinEvent) (w : World) :
  one_step w (snd (update_plot self evnt w)).
Proof.
  destruct (same_gui_update_plot self evnt w) as (Hc & _).
  destruct (update_plot_series self evnt w)
    as [Hs|(c & ser & res & xdata & ydata & _ & Hser & Hx & Hy & Hs)].
  - left. split; [exact Hs|]. intros p. by rewrite Hc.
  - right; left. by exists (pc_series c), ser, res, xdata, ydata.
Qed.

Lemma step_one_step (a : Action) (w : World) : one_step w (step a w).
Proof.
  destruct a as [|plugin subplot|panel parent|panel name caption dv lo hi inc h
                 |r v|id|panel evnt]; cbn [step].
  - rewrite import_prosail_eq. cbn [snd].
    destruct (w_imported w); left; by split.
  - rewrite plot_into_subplot_eq.
    destruct (pyprosail_run plot_into_subplot_args (w_sim w)) as [[res|e] sim'];
      [|left; by split].
    destruct (column res 0) as [xdata|] eqn:Hx; [|left; by split].
    destruct (column res 1) as [ydata|] eqn:Hy; [|left; by split].
    right; right. by exists res, xdata, ydata.
  - destruct (w_controls w !! panel) as [c|] eqn:Hc.
    + rewrite (setup_eq panel parent w c Hc). cbn [snd].
      left. split; [reflexivity|]. intros p.
      unfold setup_finished, slider_added, setup_started. proj.
      destruct (decide (panel = p)) as [<-|Hne].
      * by rewrite lookup_insert_eq, Hc.
      * by rewrite !lookup_insert_ne.
    + rewrite (setup_missing panel parent w Hc). left. by split.
  - rewrite add_slider_eq.
    destruct (w_controls w !! panel) as [c|] eqn:Hc; [|left; by split].
    destruct (pc_sliders c) as [d|]; [|left; by split].
    cbn [snd]. left. split; [reflexivity|]. intros p.
    unfold slider_added. proj.
    destruct (decide (panel = p)) as [<-|Hne].
    + by rewrite lookup_insert_eq, Hc.
    + by rewrite lookup_insert_ne.
  - unfold user_edit, with_widget, effect.
    destruct (w_widgets w !! r); left; by split.
  - unfold fire_EVT_FLOATSPIN.
    destruct (find _ (w_bindings w)) as [[[panel i] [self]]|]; [|left; by split].
    apply update_plot_one_step.
  - apply update_plot_one_step.
Qed.

Lemma one_step_equal_lengths (w w' : World) :
  one_step w w' -> equal_lengths w -> equal_lengths w'.
Proof.
  unfold equal_lengths.
  intros [[Hs _]|[(s0 & ser0 & res & xdata & ydata & _ & _ & Hx & Hy & Hs)
                 |(res & xdata & ydata & Hx & Hy & Hs & _)]] Hinv s ser;
    rewrite Hs; [apply Hinv| |].
  - destruct (decide (s0 = s)) as [<-|Hne].
    + rewrite lookup_insert_eq. intros [= <-]. cbn [s_xdata s_ydata].
      by rewrite (column_length res 0 xdata Hx), (column_length res 1 ydata Hy).
    + rewrite lookup_insert_ne by done. apply Hinv.
  - destruct (decide (fresh (dom (w_series w)) = s)) as [<-|Hne].
    + rewrite lookup_insert_eq. intros [= <-]. cbn [s_xdata s_ydata].
      by rewrite (column_length res 0 xdata Hx), (column_length res 1 ydata Hy).
    + rewrite lookup_insert_ne by done. apply Hinv.
Qed.

Lemma one_step_paired (w w' : World) : one_step w w' -> paired w -> paired w'.
Proof.
  intros Hstep [P1 P2].
  destruct Hstep as [[Hs Hl]|[(s0 & ser0 & res & xdata & ydata & Hc & Hs0 & _ & _ & Hs)
                             |(res & xdata & ydata & _ & _ & Hs & Hc)]].
  - split.
    + intros p c' Hp. rewrite Hs.
      pose proof (Hl p) as Hlp. rewrite Hp in Hlp. cbn in Hlp.
      destruct (w_controls w !! p) as [c0|] eqn:Hp0; [|discriminate].
      injection Hlp as Hlp. rewrite Hlp. by apply P1.
    + intros s ser. rewrite Hs. intros Hser.
      destruct (P2 s ser Hser) as (p & c0 & Hpan & Hp0 & Hlink).
      pose proof (Hl p) as Hlp. rewrite Hp0 in Hlp. cbn in Hlp.
      destruct (w_controls w' !! p) as [c'|] eqn:Hp; [|discriminate].
      injection Hlp as Hlp. exists p, c'. repeat split; congruence.
  - split.
    + intros p c0. rewrite Hc, Hs. intros Hp.
      destruct (P1 p c0 Hp) as (ser & Hser & Hpan).
      destruct (decide (s0 = pc_series c0)) as [E|Hne].
      * rewrite E, lookup_insert_eq. eexists. split; [reflexivity|].
        cbn [s_control_panels]. congruence.
      * rewrite lookup_insert_ne by done. by exists ser.
    + intros s ser. rewrite Hc, Hs.
      destruct (decide (s0 = s)) as [<-|Hne].
      * rewrite lookup_insert_eq. intros [= <-]. cbn [s_control_panels].
        by apply P2.
      * rewrite lookup_insert_ne by done. apply P2.
  - pose proof (fresh_lookup_None (w_series w)) as Fs.
    pose proof (fresh_lookup_None (w_controls w)) as Fc.
    split.
    + intros p c0. rewrite Hc, Hs.
      destruct (decide (fresh (dom (w_controls w)) = p)) as [<-|Hne].
      * rewrite lookup_insert_eq. intros [= <-]. cbn [pc_series].
        rewrite lookup_insert_eq. by eexists.
      * rewrite lookup_insert_ne by done. intros Hp.
        destruct (P1 p c0 Hp) as (ser & Hser & Hpan).
        rewrite lookup_insert_ne; [by exists ser|].
        intros E. rewrite E in Fs. congruence.
    + intros s ser. rewrite Hc, Hs.
      destruct (decide (fresh (dom (w_series w)) = s)) as [<-|Hne].
      * rewrite lookup_insert_eq. intros [= <-]. cbn [s_control_panels].
        eexists _, _. split; [reflexivity|]. by rewrite lookup_insert_eq.
      * rewrite lookup_insert_ne by done. intros Hser.
        destruct (P2 s ser Hser) as (p & c0 & Hpan & Hp & Hlink).
        exists p, c0. split; [done|]. split; [|done].
        rewrite lookup_insert_ne; [done|].
        intros E. rewrite E in Fc. congruence.
Qed.

Lemma exec_invariant (P : World -> Prop) :
  (forall w w', one_step w w' -> P w -> P w') ->
  forall (actions : list Action) (w : World), P w -> P (exec actions w).
Proof.
  intros Hstep actions. induction actions as [|a actions IH]; intros w Hw; [done|].
  cbn [exec fold_left]. fold (exec actions (step a w)).
  apply IH. eapply Hstep; [apply step_one_step|exact Hw].
Qed.

(** X11. In every store a process can reach from its start, by imports,
    activations, [setup] and [add_slider] calls, user edits and change
    events, the x and y arrays of every series have the same length:
    [set_xy_data] and the series constructor always get two columns of one
    table. *)
Theorem reachable_series_have_equal_lengths (sim : SimState)
    (actions : list Action) (s : loc) (ser : ProSAILSeries) :
  w_series (exec actions (initial sim)) !! s = Some ser ->
  length (s_xdata ser) = length (s_ydata ser).
Proof.
  revert s ser. change (equal_lengths (exec actions (initial sim))).
  apply exec_invariant; [apply one_step_equal_lengths|].
  intros s ser. cbn [initial w_series]. by rewrite lookup_empty.
Qed.

(** X12. In every such store each panel belongs to a series in the store,
    which lists that panel and no other, so that the [self.series] of
    [update_plot] is never dangling; and each series has exactly one panel,
    which belongs to it. *)
Theorem reachable_panels_are_paired (sim : SimState) (actions : list Action)
    (p : loc) (c : ProSAILControl) :
  w_controls (exec actions (initial sim)) !! p = Some c ->
  (exists ser,
     w_series (exec actions (initial sim)) !! pc_series c = Some ser /\
     s_control_panels ser = [p]) /\
  is_Some (series_xy (exec actions (initial sim)) p) /\
  paired (exec actions (initial sim)).
Proof.
  intros Hp.
  assert (Hpaired : paired (exec actions (initial sim))).
  { apply exec_invariant; [apply one_step_paired|].
    split; intros ? ?; cbn [initial w_series w_controls];
      by rewrite lookup_empty. }
  destruct (proj1 Hpaired p c Hp) as (ser & Hser & Hpan).
  split; [by exists ser|]. split; [|exact Hpaired].
  unfold series_xy. rewrite Hp. cbn [mbind option_bind]. rewrite Hser.
  by eexists.
Qed.

End Prosail.

(** * The theorems at work *)

(** C2, as stated: the call of [update_plot] does not have eleven fixed
    constants (with its four variables, that would be 15 arguments). *)
Lemma update_plot_call_not_eleven_constants :
  ~ (count_args is_fixed update_plot_run_args = 11 /\
     length update_plot_run_args = 14 /\
     count_args is_local update_plot_run_args = 4).
Proof. intros [H _]. vm_compute in H. discriminate. Qed.

Lemma toy_run_pure : pure_simulator nat toy_run.
Proof.
  intros args s1 s2. unfold toy_run.
  destruct args as [|[n|] [|[cab|] [|[car|] rest]]]; try reflexivity.
  by destruct (Qle_bool n 0).
Qed.

(** With a simulator that reads its state, equal slider values do not give
    equal data: purity is needed for determinism. *)
Remark drifting_run_not_deterministic :
  slider_values nat (ready nat drifting_run 0) 0 =
    slider_values nat (ready nat drifting_run 5) 0 /\
  xy_written (events_of nat (update_plot nat drifting_run 0 (mk_event 0))
                        (ready nat drifting_run 0)) <>
  xy_written (events_of nat (update_plot nat drifting_run 0 (mk_event 0))
                        (ready nat drifting_run 5)).
Proof. split; [by vm_compute|]. vm_compute. discriminate. Qed.

(** A change event on the panel fresh from [setup], with [toy_run]. *)
Lemma update_plot_writes_table_witness :
  let w := ready nat toy_run 0 in
  let w' := snd (update_plot nat toy_run 0 (mk_event 0) w) in
  update_plot nat toy_run 0 (mk_event 0) w = (Ok tt, w') /\
  exists (args : list PyVal) (res : ndarray) (xdata ydata : list Q)
         (s : loc) (reads : list Event),
    run_calls (events_of nat (update_plot nat toy_run 0 (mk_event 0)) w) = [args] /\
    toy_run args (w_sim nat w) = (Ok res, w_sim nat w') /\
    column res 0 = Ok xdata /\
    column res 1 = Ok ydata /\
    pc_series <$> w_controls nat w' !! 0 = Some s /\
    s_xdata <$> w_series nat w' !! s = Some xdata /\
    s_ydata <$> w_series nat w' !! s = Some ydata /\
    Forall (fun e => is_get_value e = true) reads /\
    events_of nat (update_plot nat toy_run 0 (mk_event 0)) w =
      reads ++ [EvRun args; EvSetXYData s xdata ydata; EvSeriesUpdate s].
Proof.
  cbv zeta.
  assert (H : update_plot nat toy_run 0 (mk_event 0) (ready nat toy_run 0) =
              (Ok tt, snd (update_plot nat toy_run 0 (mk_event 0) (ready nat toy_run 0))))
    by (vm_compute; reflexivity).
  split; [exact H|].
  exact (update_plot_writes_table nat toy_run 0 (mk_event 0) _ _ H).
Defined.

(** The call made on the panel fresh from [setup]. *)
Lemma update_plot_call_has_ten_constants_witness :
  let w := ready nat toy_run 0 in
  reading nat w 0 "EWT" = Ok (0, 0.1%Q) /\
  reading nat w 0 "Chloro" = Ok (1, 40%Q) /\
  reading nat w 0 "Carot" = Ok (2, 8%Q) /\
  reading nat w 0 "N" = Ok (3, 1.5%Q) /\
  (exists rest : list Event,
     events_of nat (update_plot nat toy_run 0 (mk_event 2)) w =
       [EvGetValue 0 0.1; EvGetValue 1 40; EvGetValue 2 8; EvGetValue 3 1.5;
        EvRun [Num 1.5; Num 40; Num 8; Num 0; Num 0.1; Num 0.009; Num 1;
               Num 3; Num 0.01; Num 30; Num 0; Num 10; Num 0; Planophile]]
       ++ rest /\
     run_calls rest = []) /\
  length update_plot_run_args = 14 /\
  count_args is_local update_plot_run_args = 4 /\
  count_args is_fixed update_plot_run_args = 10 /\
  count_args is_numeric_constant update_plot_run_args = 9 /\
  count_args is_categorical_constant update_plot_run_args = 1.
Proof.
  cbv zeta.
  assert (H1 : reading nat (ready nat toy_run 0) 0 "EWT" = Ok (0, 0.1%Q))
    by (vm_compute; reflexivity).
  assert (H2 : reading nat (ready nat toy_run 0) 0 "Chloro" = Ok (1, 40%Q))
    by (vm_compute; reflexivity).
  assert (H3 : reading nat (ready nat toy_run 0) 0 "Carot" = Ok (2, 8%Q))
    by (vm_compute; reflexivity).
  assert (H4 : reading nat (ready nat toy_run 0) 0 "N" = Ok (3, 1.5%Q))
    by (vm_compute; reflexivity).
  repeat (split; [assumption|]).
  exact (update_plot_call_has_ten_constants nat toy_run 0 (mk_event 2) _
           _ _ _ _ _ _ _ _ H1 H2 H3 H4).
Defined.

(** The activation of the plugin against the first change event. *)
Lemma default_call_is_update_plot_call_witness :
  let w := activated nat toy_run 0 in
  let c := mk_control "ProSAIL Parameters" 0 None in
  w_controls nat w !! 0 = Some c /\
  fst (setup nat 0 3 w) = Ok tt /\
  slider_values nat (snd (setup nat 0 3 w)) 0 = Some (0.1, 40, 8, 1.5)%Q /\
  run_calls (events_of nat (plot_into_subplot nat toy_run 0 7) (initial nat 0)) =
    run_calls (events_of nat (update_plot nat toy_run 0 (mk_event 1))
                         (snd (setup nat 0 3 w))) /\
  run_calls (events_of nat (plot_into_subplot nat toy_run 0 7) (initial nat 0)) =
    [[Num 1.5; Num 40; Num 8; Num 0; Num 0.1; Num 0.009; Num 1; Num 3; Num 0.01;
      Num 30; Num 0; Num 10; Num 0; Planophile]] /\
  update_plot_args 0.1 40 8 1.5 = plot_into_subplot_args.
Proof.
  cbv zeta.
  assert (Hc : w_controls nat (activated nat toy_run 0) !! 0 =
               Some (mk_control "ProSAIL Parameters" 0 None))
    by (vm_compute; reflexivity).
  split; [exact Hc|].
  exact (default_call_is_update_plot_call nat toy_run 0 3 (mk_event 1) _ _ 0 7
           (initial nat 0) Hc).
Defined.

(** [setup] of the panel of the first activation. *)
Lemma setup_builds_four_sliders_witness :
  let w := activated nat toy_run 0 in
  let c := mk_control "ProSAIL Parameters" 0 None in
  w_controls nat w !! 0 = Some c /\
  exists (r1 r2 r3 r4 : loc) (w' : World nat),
    setup nat 0 3 w = (Ok tt, w') /\
    NoDup [r1; r2; r3; r4] /\
    Forall (fun r => w_widgets nat w !! r = None) [r1; r2; r3; r4] /\
    pc_sliders <$> w_controls nat w' !! 0 =
      Some (Some (<["N" := r4]> (<["Carot" := r3]> (<["Chloro" := r2]>
                    (<["EWT" := r1]> ∅))))) /\
    w_widgets nat w' =
      <[r4 := mk_FloatSpin 0 0 3 0.1 1.5 (Some "%f") (Some 2)]>
        (<[r3 := mk_FloatSpin 0 0 100 1 8 (Some "%f") (Some 2)]>
           (<[r2 := mk_FloatSpin 0 0 100 1 40 (Some "%f") (Some 2)]>
              (<[r1 := mk_FloatSpin 0 0 1 0.01 0.1 (Some "%f") (Some 2)]>
                 (w_widgets nat w)))) /\
    size (w_widgets nat w') = size (w_widgets nat w) + 4 /\
    w_bindings nat w' =
      [(0, r4, update_plot_of 0); (0, r3, update_plot_of 0);
       (0, r2, update_plot_of 0); (0, r1, update_plot_of 0)]
      ++ w_bindings nat w /\
    Forall (fun r => fire_EVT_FLOATSPIN nat toy_run r w' =
                     update_plot nat toy_run 0 (mk_event r) w')
           [r1; r2; r3; r4].
Proof.
  cbv zeta.
  assert (Hc : w_controls nat (activated nat toy_run 0) !! 0 =
               Some (mk_control "ProSAIL Parameters" 0 None))
    by (vm_compute; reflexivity).
  split; [exact Hc|].
  exact (setup_builds_four_sliders nat toy_run 0 3 _ _ Hc).
Defined.

(** The first activation returns [True]. *)
Lemma plot_into_subplot_returns_True_witness :
  let w := initial nat 0 in
  plot_into_subplot nat toy_run 0 7 w =
    (Ok true, snd (plot_into_subplot nat toy_run 0 7 w)) /\
  true = true.
Proof.
  cbv zeta.
  assert (H : plot_into_subplot nat toy_run 0 7 (initial nat 0) =
              (Ok true, snd (plot_into_subplot nat toy_run 0 7 (initial nat 0))))
    by (vm_compute; reflexivity).
  split; [exact H|].
  exact (plot_into_subplot_returns_True nat toy_run 0 7 _ _ true H).
Defined.

(** With N set to 0, [toy_run] raises and so does the handler. *)
Lemma update_plot_propagates_exception_witness :
  let w := zeroed nat toy_run 0 in
  let e := ModelError "N must be positive" in
  slider_values nat w 0 = Some (0.1, 40, 8, 0)%Q /\
  toy_run (update_plot_args 0.1 40 8 0) (w_sim nat w) = (Raise e, 2) /\
  fst (update_plot nat toy_run 0 (mk_event 3) w) = Raise e /\
  w_sim nat (snd (update_plot nat toy_run 0 (mk_event 3) w)) = 2 /\
  run_calls (events_of nat (update_plot nat toy_run 0 (mk_event 3)) w) =
    [update_plot_args 0.1 40 8 0] /\
  exists r1 r2 r3 r4 : loc,
    events_of nat (update_plot nat toy_run 0 (mk_event 3)) w =
      [EvGetValue r1 0.1; EvGetValue r2 40; EvGetValue r3 8;
       EvGetValue r4 0; EvRun (update_plot_args 0.1 40 8 0)].
Proof.
  cbv zeta.
  assert (Hv : slider_values nat (zeroed nat toy_run 0) 0 = Some (0.1, 40, 8, 0)%Q)
    by (vm_compute; reflexivity).
  assert (Hrun : toy_run (update_plot_args 0.1 40 8 0)
                         (w_sim nat (zeroed nat toy_run 0)) =
                 (Raise (ModelError "N must be positive"), 2))
    by (vm_compute; reflexivity).
  split; [exact Hv|]. split; [exact Hrun|].
  exact (update_plot_propagates_exception nat toy_run 0 (mk_event 3) _
           _ _ _ _ _ _ Hv Hrun).
Defined.

(** With N set to 0, the series keeps the data of the activation. *)
Lemma update_plot_failure_keeps_series_witness :
  let w := zeroed nat toy_run 0 in
  let e := ModelError "N must be positive" in
  slider_values nat w 0 = Some (0.1, 40, 8, 0)%Q /\
  toy_run (update_plot_args 0.1 40 8 0) (w_sim nat w) = (Raise e, 2) /\
  fst (update_plot nat toy_run 0 (mk_event 3) w) = Raise e /\
  w_series nat (snd (update_plot nat toy_run 0 (mk_event 3) w)) = w_series nat w /\
  series_xy nat (snd (update_plot nat toy_run 0 (mk_event 3) w)) 0 = series_xy nat w 0 /\
  Forall (fun ev => is_series_write ev = false)
         (events_of nat (update_plot nat toy_run 0 (mk_event 3)) w) /\
  exists reads : list Event,
    Forall (fun ev => is_get_value ev = true) reads /\
    events_of nat (update_plot nat toy_run 0 (mk_event 3)) w =
      reads ++ [EvRun (update_plot_args 0.1 40 8 0)].
Proof.
  cbv zeta.
  assert (Hv : slider_values nat (zeroed nat toy_run 0) 0 = Some (0.1, 40, 8, 0)%Q)
    by (vm_compute; reflexivity).
  assert (Hrun : toy_run (update_plot_args 0.1 40 8 0)
                         (w_sim nat (zeroed nat toy_run 0)) =
                 (Raise (ModelError "N must be positive"), 2))
    by (vm_compute; reflexivity).
  split; [exact Hv|]. split; [exact Hrun|].
  exact (update_plot_failure_keeps_series nat toy_run 0 (mk_event 3) _
           _ _ _ _ _ _ Hv Hrun).
Defined.

(** Two panels in two stores, both with the default values. *)
Lemma prosail_is_deterministic_witness :
  let w1 := ready nat toy_run 0 in
  let w2 := second_ready nat toy_run 3 in
  let up1 := update_plot nat toy_run 0 (mk_event 0) in
  let up2 := update_plot nat toy_run 1 (mk_event 2) in
  let plot1 := plot_into_subplot nat toy_run 0 7 in
  let plot2 := plot_into_subplot nat toy_run 0 9 in
  pure_simulator nat toy_run /\
  slider_values nat w1 0 = Some (0.1, 40, 8, 1.5)%Q /\
  slider_values nat w2 1 = Some (0.1, 40, 8, 1.5)%Q /\
  is_Some (series_xy nat w1 0) /\
  is_Some (series_xy nat w2 1) /\
  (fst (up1 w1) = fst (up2 w2) /\
   xy_written (events_of nat up1 w1) = xy_written (events_of nat up2 w2) /\
   (fst (up1 w1) = Ok tt ->
    series_xy nat (snd (up1 w1)) 0 = series_xy nat (snd (up2 w2)) 1)) /\
  (fst (plot1 (initial nat 0)) = fst (plot2 w1) /\
   xy_written (events_of nat plot1 (initial nat 0)) =
     xy_written (events_of nat plot2 w1)).
Proof.
  cbv zeta.
  assert (Hv1 : slider_values nat (ready nat toy_run 0) 0 = Some (0.1, 40, 8, 1.5)%Q)
    by (vm_compute; reflexivity).
  assert (Hv2 : slider_values nat (second_ready nat toy_run 3) 1 =
                Some (0.1, 40, 8, 1.5)%Q)
    by (vm_compute; reflexivity).
  assert (Hs1 : is_Some (series_xy nat (ready nat toy_run 0) 0))
    by (vm_compute; eexists; reflexivity).
  assert (Hs2 : is_Some (series_xy nat (second_ready nat toy_run 3) 1))
    by (vm_compute; eexists; reflexivity).
  split; [exact toy_run_pure|].
  split; [exact Hv1|]. split; [exact Hv2|].
  split; [exact Hs1|]. split; [exact Hs2|].
  exact (prosail_is_deterministic nat toy_run 0 1 (mk_event 0) (mk_event 2) _ _ _
           0 0 7 9 (initial nat 0) (ready nat toy_run 0)
           toy_run_pure Hv1 Hv2 Hs1 Hs2).
Defined.

(** The panel before [setup], and after [setup] and six more actions. *)
Lemma sliders_exist_from_setup_on_witness :
  let w := activated nat toy_run 0 in
  let c := mk_control "ProSAIL Parameters" 0 None in
  let actions :=
    [ActUserEdit 3 0; ActChange 3;
     ActAddSlider 0 "N" "Structure Coefficient" 1.5 0 3 0.1 (update_plot_of 0);
     ActPlot 0 9; ActSetup 1 4; ActImport] in
  let w2 := exec nat toy_run actions (snd (setup nat 0 3 w)) in
  w_controls nat w !! 0 = Some c /\
  pc_sliders c = None /\
  (fst (ProSAILControl_init nat 5 (initial nat 0)) = Ok 0 /\
   w_controls nat (snd (ProSAILControl_init nat 5 (initial nat 0))) !! 0 =
     Some (mk_control "ProSAIL Parameters" 5 None)) /\
  update_plot nat toy_run 0 (mk_event 0) w = (Raise (AttributeError "sliders"), w) /\
  fst (add_slider nat 0 "EWT" "Equivalent Water Thickness (cm)" 0.1 0 1 0.01
                  (update_plot_of 0) w) = Raise (AttributeError "sliders") /\
  fst (setup nat 0 3 w) = Ok tt /\
  sliders_ready nat w2 0 /\
  exists (r1 r2 r3 r4 : loc) (ewt chloro carot N : Q) (rest : list Event),
    reading nat w2 0 "EWT" = Ok (r1, ewt) /\
    reading nat w2 0 "Chloro" = Ok (r2, chloro) /\
    reading nat w2 0 "Carot" = Ok (r3, carot) /\
    reading nat w2 0 "N" = Ok (r4, N) /\
    events_of nat (update_plot nat toy_run 0 (mk_event 1)) w2 =
      [EvGetValue r1 ewt; EvGetValue r2 chloro; EvGetValue r3 carot;
       EvGetValue r4 N; EvRun (update_plot_args ewt chloro carot N)] ++ rest.
Proof.
  cbv zeta.
  assert (Hc : w_controls nat (activated nat toy_run 0) !! 0 =
               Some (mk_control "ProSAIL Parameters" 0 None))
    by (vm_compute; reflexivity).
  assert (Hd : pc_sliders (mk_control "ProSAIL Parameters" 0 None) = None)
    by reflexivity.
  split; [exact Hc|]. split; [exact Hd|].
  exact (sliders_exist_from_setup_on nat toy_run 5 (initial nat 0)
           0 _ _ (mk_event 0) "EWT" "Equivalent Water Thickness (cm)"
           0.1 0 1 0.01 (update_plot_of 0)
           0 3 _ _ _ (mk_event 1) Hc Hd Hc).
Defined.

(** * The further properties at work *)

(** The first activation of a process, with [toy_run]. *)
Lemma plot_into_subplot_creates_pair_witness :
  let w := initial nat 0 in
  let res := mk_ndarray 2 [[400; 1.5]; [401; 40]; [402; 8]]%Q in
  toy_run plot_into_subplot_args (w_sim nat w) = (Ok res, 1) /\
  (2 <= ncols res)%nat /\
  fst (plot_into_subplot nat toy_run 0 7 w) = Ok true /\
  w_series nat (snd (plot_into_subplot nat toy_run 0 7 w)) =
    <[0 := mk_series "ProSAIL Output" [400; 401; 402]%Q [1.5; 40; 8]%Q [0]]>
      (w_series nat w) /\
  w_controls nat (snd (plot_into_subplot nat toy_run 0 7 w)) =
    <[0 := mk_control "ProSAIL Parameters" 0 None]> (w_controls nat w).
Proof.
  cbv zeta.
  assert (Hrun : toy_run plot_into_subplot_args (w_sim nat (initial nat 0)) =
                 (Ok (mk_ndarray 2 [[400; 1.5]; [401; 40]; [402; 8]]%Q), 1))
    by (vm_compute; reflexivity).
  assert (Hn : (2 <= ncols (mk_ndarray 2 [[400; 1.5]; [401; 40]; [402; 8]]%Q))%nat)
    by (cbn; lia).
  split; [exact Hrun|]. split; [exact Hn|].
  destruct (plot_into_subplot_creates_pair nat toy_run 0 7 _ _ _ Hrun Hn)
    as (H1 & _ & _ & H4 & H5 & _).
  split; [exact H1|]. split; [exact H4|exact H5].
Defined.

(** A second activation, whose table has lost its second column. *)
Lemma plot_into_subplot_failure_creates_nothing_witness :
  let w := activated nat narrowing_run 0 in
  narrowing_run plot_into_subplot_args (w_sim nat w) = (Ok (mk_ndarray 1 [[400%Q]]), 2) /\
  fst (plot_into_subplot nat narrowing_run 0 9 w) = Raise IndexError /\
  w_series nat (snd (plot_into_subplot nat narrowing_run 0 9 w)) = w_series nat w /\
  w_controls nat (snd (plot_into_subplot nat narrowing_run 0 9 w)) = w_controls nat w /\
  events_of nat (plot_into_subplot nat narrowing_run 0 9) w =
    [EvRun plot_into_subplot_args].
Proof.
  cbv zeta.
  assert (Hrun : narrowing_run plot_into_subplot_args
                   (w_sim nat (activated nat narrowing_run 0)) =
                 (Ok (mk_ndarray 1 [[400%Q]]), 2))
    by (vm_compute; reflexivity).
  split; [exact Hrun|].
  apply (plot_into_subplot_failure_creates_nothing nat narrowing_run 0 9).
  right. exists (mk_ndarray 1 [[400%Q]]), 2.
  split; [exact Hrun|]. split; [cbn; lia|reflexivity].
Defined.

(** A change event whose table has lost its second column. *)
Lemma update_plot_narrow_table_witness :
  let w := ready nat narrowing_run 0 in
  slider_values nat w 0 = Some (0.1, 40, 8, 1.5)%Q /\
  narrowing_run (update_plot_args 0.1 40 8 1.5) (w_sim nat w) =
    (Ok (mk_ndarray 1 [[400%Q]]), 2) /\
  fst (update_plot nat narrowing_run 0 (mk_event 0) w) = Raise IndexError /\
  w_series nat (snd (update_plot nat narrowing_run 0 (mk_event 0) w)) = w_series nat w.
Proof.
  cbv zeta.
  assert (Hv : slider_values nat (ready nat narrowing_run 0) 0 =
               Some (0.1, 40, 8, 1.5)%Q) by (vm_compute; reflexivity).
  assert (Hrun : narrowing_run (update_plot_args 0.1 40 8 1.5)
                   (w_sim nat (ready nat narrowing_run 0)) =
                 (Ok (mk_ndarray 1 [[400%Q]]), 2))
    by (vm_compute; reflexivity).
  split; [exact Hv|]. split; [exact Hrun|].
  destruct (update_plot_narrow_table nat narrowing_run 0 (mk_event 0) _
              _ _ _ _ _ _ Hv Hrun ltac:(cbn; lia)) as (H1 & H2 & _).
  split; [exact H1|exact H2].
Defined.

(** A panel whose dictionary holds EWT and Chloro only. *)
Lemma update_plot_missing_key_witness :
  let d : gmap string loc := <["EWT" := 0]> (<["Chloro" := 1]> ∅) in
  let c := mk_control "ProSAIL Parameters" 0 (Some d) in
  let w := set_controls nat (<[0 := c]> ∅) (ready nat toy_run 0) in
  w_controls nat w !! 0 = Some c /\
  first_missing d = Some "Carot" /\
  fst (update_plot nat toy_run 0 (mk_event 0) w) = Raise (KeyError "Carot") /\
  run_calls (events_of nat (update_plot nat toy_run 0 (mk_event 0)) w) = [].
Proof.
  cbv zeta.
  set (d := <["EWT" := 0]> (<["Chloro" := 1]> (∅ : gmap string loc))).
  set (c := mk_control "ProSAIL Parameters" 0 (Some d)).
  set (w := set_controls nat (<[0 := c]> ∅) (ready nat toy_run 0)).
  assert (Hc : w_controls nat w !! 0 = Some c) by apply lookup_insert_eq.
  assert (Hm : first_missing d = Some "Carot") by (vm_compute; reflexivity).
  assert (Hlive : forall k r, d !! k = Some r -> is_Some (w_widgets nat w !! r)).
  { intros k r Hk. unfold d in Hk.
    apply lookup_insert_Some in Hk as [[_ <-]|[_ Hk]];
      [vm_compute; by eexists|].
    apply lookup_insert_Some in Hk as [[_ <-]|[_ Hk]];
      [vm_compute; by eexists|].
    by rewrite lookup_empty in Hk. }
  split; [exact Hc|]. split; [exact Hm|].
  destruct (update_plot_missing_key nat toy_run 0 (mk_event 0) w c d "Carot"
              Hc eq_refl Hlive Hm) as (H1 & _ & _ & H4).
  split; [exact H1|exact H4].
Defined.

(** A fifth slider on the panel fresh from [setup]. *)
Lemma add_slider_extends_dictionary_witness :
  let w := ready nat toy_run 0 in
  let m := add_slider nat 0 "LAI" "Leaf Area Index" 3 0 10 0.5 (update_plot_of 0) in
  (exists c d, w_controls nat w !! 0 = Some c /\ pc_sliders c = Some d) /\
  fst (m w) = Ok tt /\
  reading nat (snd (m w)) 0 "LAI" = Ok (4, 3%Q) /\
  reading nat (snd (m w)) 0 "N" = Ok (3, 1.5%Q).
Proof.
  cbv zeta.
  set (d := <["N" := 3]> (<["Carot" := 2]> (<["Chloro" := 1]>
              (<["EWT" := 0]> (∅ : gmap string loc))))).
  set (c := mk_control "ProSAIL Parameters" 0 (Some d)).
  assert (Hc : w_controls nat (ready nat toy_run 0) !! 0 = Some c)
    by (vm_compute; reflexivity).
  assert (Hd : pc_sliders c = Some d) by reflexivity.
  split; [by exists c, d|].
  destruct (add_slider_extends_dictionary nat 0 "LAI" "Leaf Area Index" 3 0 10 0.5
              (update_plot_of 0) _ c d Hc Hd) as (H1 & _ & _ & _ & H5 & H6 & _).
  split; [exact H1|]. split.
  - change 4 with (fresh (dom (w_widgets nat (ready nat toy_run 0)))). exact H5.
  - apply H6; [done|]. vm_compute; reflexivity.
Defined.

(** [add_slider] on the panel before [setup]. *)
Lemma add_slider_failure_leaves_widget_witness :
  let w := activated nat toy_run 0 in
  let c := mk_control "ProSAIL Parameters" 0 None in
  let m := add_slider nat 0 "EWT" "Equivalent Water Thickness (cm)" 0.1 0 1 0.01
                      (update_plot_of 0) in
  w_controls nat w !! 0 = Some c /\
  pc_sliders c = None /\
  fst (m w) = Raise (AttributeError "sliders") /\
  w_widgets nat (snd (m w)) =
    <[0 := mk_FloatSpin 0 0 1 0.01 0.1 (Some "%f") (Some 2)]> (w_widgets nat w) /\
  w_bindings nat (snd (m w)) = w_bindings nat w.
Proof.
  cbv zeta.
  assert (Hc : w_controls nat (activated nat toy_run 0) !! 0 =
               Some (mk_control "ProSAIL Parameters" 0 None))
    by (vm_compute; reflexivity).
  split; [exact Hc|]. split; [reflexivity|].
  destruct (add_slider_failure_leaves_widget nat 0 "EWT"
              "Equivalent Water Thickness (cm)" 0.1 0 1 0.01 (update_plot_of 0)
              _ _ Hc eq_refl) as (H1 & _ & H3 & _ & H5 & _).
  split; [exact H1|]. split; [exact H3|exact H5].
Defined.

(** [setup] of the panel of the first activation. *)
Lemma setup_layout_witness :
  let w := activated nat toy_run 0 in
  w_controls nat w !! 0 = Some (mk_control "ProSAIL Parameters" 0 None) /\
  w_series nat (snd (setup nat 0 3 w)) = w_series nat w /\
  run_calls (events_of nat (setup nat 0 3) w) = [].
Proof.
  cbv zeta.
  assert (Hc : w_controls nat (activated nat toy_run 0) !! 0 =
               Some (mk_control "ProSAIL Parameters" 0 None))
    by (vm_compute; reflexivity).
  split; [exact Hc|].
  destruct (setup_layout nat 0 3 _ _ Hc) as (_ & H2 & H3 & _).
  split; [exact H2|exact H3].
Defined.

(** A second [setup] of a panel; widget 3 was its N slider. *)
Lemma setup_again_abandons_old_widgets_witness :
  let w := ready nat toy_run 0 in
  let fs := mk_FloatSpin 0 0 3 0.1 1.5 (Some "%f") (Some 2) in
  let w' := snd (setup nat 0 3 w) in
  is_Some (w_controls nat w !! 0) /\
  w_widgets nat w !! 3 = Some fs /\
  w_widgets nat w' !! 3 = Some fs /\
  slider_values nat (snd (user_edit nat 3 0 w')) 0 = Some (0.1, 40, 8, 1.5)%Q /\
  fire_EVT_FLOATSPIN nat toy_run 3 w' = update_plot nat toy_run 0 (mk_event 3) w'.
Proof.
  cbv zeta.
  set (d := <["N" := 3]> (<["Carot" := 2]> (<["Chloro" := 1]>
              (<["EWT" := 0]> (∅ : gmap string loc))))).
  assert (Hc : w_controls nat (ready nat toy_run 0) !! 0 =
               Some (mk_control "ProSAIL Parameters" 0 (Some d)))
    by (vm_compute; reflexivity).
  assert (Hr : w_widgets nat (ready nat toy_run 0) !! 3 =
               Some (mk_FloatSpin 0 0 3 0.1 1.5 (Some "%f") (Some 2)))
    by (vm_compute; reflexivity).
  split; [by rewrite Hc|]. split; [exact Hr|].
  destruct (setup_again_abandons_old_widgets nat toy_run 0 3 _ _ 3 _ 0 Hc Hr)
    as (H1 & _ & H3 & H4).
  split; [exact H1|]. split; [exact H3|].
  apply (H4 0). vm_compute; reflexivity.
Defined.


(** The series of the first activation after an edit and a change event. *)
Lemma reachable_series_have_equal_lengths_witness :
  let actions := [ActImport; ActPlot 0 7; ActSetup 0 3; ActUserEdit 3 2; ActChange 3] in
  let ser := mk_series "ProSAIL Output" [400; 401; 402]%Q [2; 40; 8]%Q [0] in
  w_series nat (exec nat toy_run actions (initial nat 0)) !! 0 = Some ser /\
  length (s_xdata ser) = length (s_ydata ser).
Proof.
  cbv zeta.
  assert (H : w_series nat
                (exec nat toy_run
                   [ActImport; ActPlot 0 7; ActSetup 0 3; ActUserEdit 3 2; ActChange 3]
                   (initial nat 0)) !! 0 =
              Some (mk_series "ProSAIL Output" [400; 401; 402]%Q [2; 40; 8]%Q [0]))
    by (vm_compute; reflexivity).
  split; [exact H|].
  exact (reachable_series_have_equal_lengths nat toy_run 0 _ 0 _ H).
Defined.

(** The second of two activations. *)
Lemma reachable_panels_are_paired_witness :
  let actions := [ActImport; ActPlot 0 7; ActPlot 0 9] in
  let c := mk_control "ProSAIL Parameters" 1 None in
  let w := exec nat toy_run actions (initial nat 0) in
  w_controls nat w !! 1 = Some c /\
  (exists ser, w_series nat w !! pc_series c = Some ser /\ s_control_panels ser = [1]) /\
  is_Some (series_xy nat w 1).
Proof.
  cbv zeta.
  assert (H : w_controls nat
                (exec nat toy_run [ActImport; ActPlot 0 7; ActPlot 0 9] (initial nat 0))
                !! 1 = Some (mk_control "ProSAIL Parameters" 1 None))
    by (vm_compute; reflexivity).
  split; [exact H|].
  destruct (reachable_panels_are_paired nat toy_run 0 _ 1 _ H) as (H1 & H2 & _).
  split; [exact H1|exact H2].
Defined.
